(** * Surface Evolver Jupyter kernel: the process-control protocol

    A shallow embedding of [evolver_kernel/kernel.py].  The kernel drives one
    interactive child process through [pexpect]: it spawns it, walks through
    a start-up handshake, and then sends the non-blank lines of a cell one at
    a time, each followed by a wait for the prompt.

    The Python methods of [EvolverKernel] become computations in a state and
    exception monad over the kernel object ([self]) and the world outside it
    (SIGINT disposition, the [before] attributes of the pexpect objects, and
    a log of everything the kernel did).  What the child process and the
    operating system answer is not known to the program; it is an
    [Environment], an oracle consulted once per library call.  A
    cancellation by the user (SIGINT) is one of the answers a call can get:
    it is modelled where the kernel spends its time, waiting in pexpect, and
    the statements about cancellations say at which calls it may arrive. *)

From stdpp Require Import gmap list.
From Stdlib Require Import String Ascii ZArith NArith Lia.

Local Open Scope N_scope.

(** ** Python strings

    A [str] is a sequence of Unicode code points. *)

Abbreviation str := (list N).

(** An ASCII literal, character by character. *)
Definition lit (s : string) : str := map N_of_ascii (list_ascii_of_string s).
Arguments lit : simpl never.

Definition LF : N := 10.
Definition CR : N := 13.

(** [str.isspace] on one code point, the set used by [str.strip()]. *)
Definition isspace (c : N) : bool :=
  ((9 <=? c) && (c <=? 13)) || ((28 <=? c) && (c <=? 32))
  || (c =? 133) || (c =? 160) || (c =? 5760)
  || ((8192 <=? c) && (c <=? 8202))
  || (c =? 8232) || (c =? 8233) || (c =? 8239) || (c =? 8287) || (c =? 12288).

(** The line boundaries of [str.splitlines()]. *)
Definition islinebreak (c : N) : bool :=
  ((10 <=? c) && (c <=? 13)) || ((28 <=? c) && (c <=? 30))
  || (c =? 133) || (c =? 8232) || (c =? 8233).

(** [s.rstrip(chars)] and [s.lstrip(chars)], with the character set as a
    predicate. *)
Fixpoint rstrip_by (p : N -> bool) (s : str) : str :=
  match s with
  | [] => []
  | c :: s' =>
      match rstrip_by p s' with
      | [] => if p c then [] else [c]
      | t => c :: t
      end
  end.

Fixpoint lstrip_by (p : N -> bool) (s : str) : str :=
  match s with
  | [] => []
  | c :: s' => if p c then lstrip_by p s' else s
  end.

(** [s.rstrip('\n')] *)
Definition rstrip_newlines (s : str) : str := rstrip_by (N.eqb LF) s.

(** [s.strip()] *)
Definition strip (s : str) : str := rstrip_by isspace (lstrip_by isspace s).

(** Truth value of a string: non-empty. *)
Definition truthy (s : str) : bool :=
  match s with [] => false | _ => true end.

(** [s.splitlines()]: cut at every line boundary, a carriage return followed
    by a line feed counting once; the boundaries are dropped and no empty
    last line is produced.  [after_cr] remembers that the previous character
    was a carriage return, [cur] is the line read so far. *)
Fixpoint splitlines_from (after_cr : bool) (cur : str) (s : str) : list str :=
  match s with
  | [] => if truthy cur then [cur] else []
  | c :: s' =>
      if after_cr && (c =? LF) then splitlines_from false cur s'
      else if islinebreak c then cur :: splitlines_from (c =? CR) [] s'
      else splitlines_from false (cur ++ [c]) s'
  end.

Definition splitlines (s : str) : list str := splitlines_from false [] s.

(** Whitespace only (the empty string included). *)
Definition blank (s : str) : bool := forallb isspace s.

(** ** Prompt patterns (regular expressions, kept as text) *)

Definition FILE_PROMPT_PAT : str :=
  lit "Enter new datafile name\s*\(none to continue, q to quit\):\s*".
Definition MAIN_PROMPT_PAT : str := lit "Enter command:\s*".
Definition FALLBACK_PROMPT_PAT : str := lit "> ".

(** ** Exceptions *)

Inductive exn :=
| KeyboardInterrupt
| PexpectEOF (msg : str)
| PexpectTIMEOUT (msg : str)
| AttributeError (msg : str)
| TypeError (msg : str)
| OtherException (msg : str).

(** [isinstance(e, Exception)]: everything here but [KeyboardInterrupt],
    which derives from [BaseException] only. *)
Definition is_Exception (e : exn) : bool :=
  match e with KeyboardInterrupt => false | _ => true end.

(** [str(e)] *)
Definition str_of_exn (e : exn) : str :=
  match e with
  | KeyboardInterrupt => []
  | PexpectEOF m | PexpectTIMEOUT m | AttributeError m | TypeError m
  | OtherException m => m
  end.

Inductive res (A : Type) :=
| Ok (a : A)
| Exc (e : exn).
Arguments Ok {A} a.
Arguments Exc {A} e.

(** ** The kernel object and the world around it *)

(** A SIGINT disposition, as [signal.signal] takes and returns it. *)
Inductive handler :=
| SIG_DFL
| SIG_IGN
| default_int_handler
| PyCallable (id : nat).

(** Python turns a SIGINT into [KeyboardInterrupt] through a handler written
    in Python; with the disposition at [SIG_DFL] or [SIG_IGN] nothing is
    raised. *)
Definition python_level (h : handler) : bool :=
  match h with SIG_DFL | SIG_IGN => false | _ => true end.

(** The calls into pexpect whose outcome depends on the child process.  A
    pexpect object is named by the number [cid] it got when it was spawned;
    [timeout := None] is a wait without limit. *)
Inductive call :=
| CSpawn (cmd : str) (timeout : Z)
| CExpect (cid : nat) (pat : str) (timeout : option Z)
| CSendline (cid : nat) (line : str)
| CSendintr (cid : nat)
| CIsalive (cid : nat).

Inductive stream := stdout | stderr.

(** What the kernel does that can be seen from outside, in order. *)
Inductive event :=
| Signal (h : handler)
| Called (c : call)
| SetLogfile (cid : nat)
| Stream (name : stream) (text : str).

(** The answer of the environment to one call: whether the call raises, the
    text that [expect] leaves in [before] (pexpect sets [before] on a match,
    on a timeout, on end-of-stream and on any other error alike), and what
    [isalive] returns. *)
Record answer := Answer {
  raises : option exn;
  text : str;
  alive : bool
}.

(** The environment: the answer to the [n]-th call of a run. *)
Class Environment := answer_of : nat -> call -> answer.

Record world := World {
  tick : nat;                  (* library calls made so far *)
  sigint : handler;            (* current SIGINT disposition *)
  before_of : gmap nat str;    (* [child.before]; no entry is [None] *)
  trace : list event
}.

(** [self] *)
Record kernel := Kernel {
  _evolver_cmd : str;
  _default_datafile : str;
  _debug : bool;
  child : option nat;
  _prompt_pat : str;
  execution_count : Z
}.

(** The reply dictionaries of [do_execute]; [payload], [user_expressions]
    and [traceback] are always empty. *)
Inductive reply :=
| ReplyOk (execution_count : Z)
| ReplyError (execution_count : Z) (ename evalue : str).

Definition status_ok (r : reply) : bool :=
  match r with ReplyOk _ => true | ReplyError _ _ _ => false end.

(** [EvolverKernel.__init__], from the three environment variables and the
    result of [shutil.which('evolver')]. *)
Definition __init__ (EVOLVER_CMD which_evolver EVOLVER_DATAFILE
                     EVOLVER_KERNEL_DEBUG : option str) : kernel :=
  {| _evolver_cmd :=
       match EVOLVER_CMD with
       | Some c => c
       | None =>
           match which_evolver with
           | Some p => if truthy p then p else lit "evolver"
           | None => lit "evolver"
           end
       end;
     _default_datafile := default [] EVOLVER_DATAFILE;
     _debug := match EVOLVER_KERNEL_DEBUG with Some v => truthy v | None => false end;
     child := None;
     _prompt_pat := MAIN_PROMPT_PAT;
     execution_count := 0%Z |}.

(** ** The monad *)

Definition M (A : Type) : Type := kernel -> world -> res A * kernel * world.

Definition ret {A} (a : A) : M A := fun k w => (Ok a, k, w).

Definition raise {A} (e : exn) : M A := fun k w => (Exc e, k, w).

Definition bind {A B} (m : M A) (f : A -> M B) : M B := fun k w =>
  match m k w with
  | (Ok a, k', w') => f a k' w'
  | (Exc e, k', w') => (Exc e, k', w')
  end.

Declare Scope py_scope.
Delimit Scope py_scope with py.
Notation "'let*' x ':=' m 'in' f" := (bind m (fun x => f))
  (at level 10, x name, m at level 100, f at level 200) : py_scope.
Notation "m ';;;' f" := (bind m (fun _ => f))
  (at level 100, f at level 200, right associativity) : py_scope.
Local Open Scope py_scope.

(** [try: m except ...: h]: the clauses are a function that picks the
    handler of the first matching clause; an exception raised by the handler
    itself is not caught here. *)
Definition try_except {A} (m : M A) (clauses : exn -> option (M A)) : M A :=
  fun k w =>
    match m k w with
    | (Ok a, k', w') => (Ok a, k', w')
    | (Exc e, k', w') =>
        match clauses e with
        | Some h => h k' w'
        | None => (Exc e, k', w')
        end
    end.

(** [try: m finally: f] *)
Definition try_finally {A} (m : M A) (f : M unit) : M A := fun k w =>
  match m k w with
  | (r, k', w') =>
      match f k' w' with
      | (Ok _, k'', w'') => (r, k'', w'')
      | (Exc e, k'', w'') => (Exc e, k'', w'')
      end
  end.

(** Reading and writing [self]. *)
Definition gets {A} (f : kernel -> A) : M A := fun k w => (Ok (f k), k, w).

Definition with_child (c : option nat) (k : kernel) : kernel :=
  {| _evolver_cmd := _evolver_cmd k; _default_datafile := _default_datafile k;
     _debug := _debug k; child := c; _prompt_pat := _prompt_pat k;
     execution_count := execution_count k |}.

Definition with_prompt_pat (p : str) (k : kernel) : kernel :=
  {| _evolver_cmd := _evolver_cmd k; _default_datafile := _default_datafile k;
     _debug := _debug k; child := child k; _prompt_pat := p;
     execution_count := execution_count k |}.

Definition set_child (c : option nat) : M unit := fun k w =>
  (Ok tt, with_child c k, w).

Definition set_prompt_pat (p : str) : M unit := fun k w =>
  (Ok tt, with_prompt_pat p k, w).

(** Appending to the log. *)
Definition log (ev : event) (w : world) : world :=
  {| tick := tick w; sigint := sigint w; before_of := before_of w;
     trace := trace w ++ [ev] |}.

Definition emit (ev : event) : M unit := fun k w => (Ok tt, k, log ev w).

Definition getsw {A} (f : world -> A) : M A := fun k w => (Ok (f w), k, w).

(** [signal.signal(signal.SIGINT, h)]: installs [h], returns what was
    installed before. *)
Definition signal_signal (h : handler) : M handler := fun k w =>
  (Ok (sigint w), k,
   {| tick := tick w; sigint := h; before_of := before_of w;
      trace := trace w ++ [Signal h] |}).

(** [self.send_response(self.iopub_socket, 'stream', {...})], taken to
    return.  The SIGINTs of a run are the [KeyboardInterrupt] answers to its
    pexpect calls, where the kernel waits for the child; a SIGINT that
    arrives while the interpreter is between two of these calls, in
    [send_response] or elsewhere, is not part of this model. *)
Definition _emit_stdout (text : str) : M unit := emit (Stream stdout text).
Definition _emit_stderr (text : str) : M unit := emit (Stream stderr text).

(** [self.child.<attr>] when [self.child] may be [None]. *)
Definition self_child (attr : string) : M nat := fun k w =>
  match child k with
  | Some cid => (Ok cid, k, w)
  | None =>
      (Exc (AttributeError
              (lit "'NoneType' object has no attribute '" ++ lit attr ++ lit "'")),
       k, w)
  end.

(** [''.join(outputs)]; an item that is [None] is a [TypeError] (the index
    of the item is left out of the message). *)
Fixpoint join (outputs : list (option str)) : res str :=
  match outputs with
  | [] => Ok []
  | Some s :: rest =>
      match join rest with
      | Ok t => Ok (s ++ t)
      | Exc e => Exc e
      end
  | None :: _ =>
      Exc (TypeError (lit "sequence item: expected str instance, NoneType found"))
  end.

Definition lift {A} (r : res A) : M A := fun k w => (r, k, w).

(** ** The messages of the kernel *)

Definition NO_FILE_PROMPT_MSG : str :=
  lit "[EvolverKernel] No vi prompt de datafile; contin" ++ [250] ++ lit "o." ++ [LF].
Definition FALLBACK_MSG : str :=
  lit "[EvolverKernel] No vi prompt principal; uso fallback '> '." ++ [LF].
Definition LAUNCHED_FALLBACK_MSG : str :=
  lit "[EvolverKernel] Evolver lanzado con prompt fallback." ++ [LF].
Definition LAUNCHED_MSG : str :=
  lit "[EvolverKernel] Evolver lanzado. Prompt principal listo." ++ [LF].
Definition launch_error_msg (exc : exn) : str :=
  lit "[EvolverKernel] ERROR lanzando Evolver: " ++ str_of_exn exc ++ [LF].
Definition NO_LAUNCH_MSG : str :=
  lit "[EvolverKernel] ERROR: no pude lanzar Surface Evolver." ++ [LF].
Definition EOF_MSG : str :=
  lit "[EvolverKernel] Evolver muri" ++ [243] ++ lit " (EOF); reinicio." ++ [LF].
Definition line_error_msg (ln : str) (e : exn) : str :=
  lit "[EvolverKernel] Excepci" ++ [243] ++ lit "n ejecutando '" ++ ln
  ++ lit "': " ++ str_of_exn e ++ [LF].

(** ** The methods of [EvolverKernel] *)

Section Kernel.
Context {E : Environment}.

(** One call into pexpect: the environment answers, the call is logged, an
    [expect] stores the text it read in [before] whatever its outcome, and
    the call raises what the environment says.  A [KeyboardInterrupt] answer
    stands for a SIGINT that arrives during the call.  Through a
    Python-level handler it is raised; under [SIG_IGN] it is dropped.  Under
    [SIG_DFL] it ends the kernel process, a run that neither returns nor
    raises: [res] has no outcome for that, the call is let through here, and
    whatever is stated about a method returning or going on is stated for
    environments that send no SIGINT at such a call
    ([cancelled_only_while_waiting] below). *)
Definition consult (c : call) : M answer := fun k w =>
  let a := answer_of (tick w) c in
  let w' :=
    {| tick := S (tick w); sigint := sigint w;
       before_of :=
         match c with
         | CExpect cid _ _ => <[cid := text a]> (before_of w)
         | _ => before_of w
         end;
       trace := trace w ++ [Called c] |} in
  match raises a with
  | Some KeyboardInterrupt =>
      if python_level (sigint w) then (Exc KeyboardInterrupt, k, w')
      else (Ok a, k, w')
  | Some e => (Exc e, k, w')
  | None => (Ok a, k, w')
  end.

(** [pexpect.spawn(cmd, echo=False, encoding='utf-8',
    codec_errors='replace', timeout=timeout)]; the new object is named by
    the number of the call that made it. *)
Definition pexpect_spawn (cmd : str) (timeout : Z) : M nat :=
  let* n := getsw tick in
  consult (CSpawn cmd timeout) ;;;
  ret n.

Definition expect (cid : nat) (pat : str) (timeout : option Z) : M unit :=
  consult (CExpect cid pat timeout) ;;; ret tt.

Definition sendline (cid : nat) (line : str) : M unit :=
  consult (CSendline cid line) ;;; ret tt.

Definition sendintr (cid : nat) : M unit :=
  consult (CSendintr cid) ;;; ret tt.

Definition isalive (cid : nat) : M bool :=
  let* a := consult (CIsalive cid) in ret (alive a).

(** [child.before] *)
Definition before (cid : nat) : M (option str) :=
  getsw (fun w => before_of w !! cid).

Definition except_TIMEOUT {A} (h : M A) (e : exn) : option (M A) :=
  match e with PexpectTIMEOUT _ => Some h | _ => None end.

Definition except_Exception {A} (h : exn -> M A) (e : exn) : option (M A) :=
  if is_Exception e then Some (h e) else None.

(** [_spawn_and_handshake].  The inner block yields [Some child] where the
    source returns from inside the handler (fallback prompt) and [None]
    where control falls through to the statements after it. *)
Definition _spawn_and_handshake (timeout : Z) : M nat :=
  let* sig := signal_signal SIG_DFL in
  try_finally
    (let* cmd := gets _evolver_cmd in
     let* child := pexpect_spawn cmd timeout in
     let* debug := gets _debug in
     (if debug : bool then emit (SetLogfile child) else ret tt) ;;;
     try_except (expect child FILE_PROMPT_PAT (Some timeout))
       (except_TIMEOUT (_emit_stderr NO_FILE_PROMPT_MSG)) ;;;
     let* datafile := gets _default_datafile in
     sendline child datafile ;;;
     let* returned :=
       try_except (expect child MAIN_PROMPT_PAT (Some timeout) ;;; ret None)
         (except_TIMEOUT
            (sendline child [] ;;;
             try_except (expect child MAIN_PROMPT_PAT (Some 5%Z) ;;; ret None)
               (except_TIMEOUT
                  (_emit_stderr FALLBACK_MSG ;;;
                   set_prompt_pat FALLBACK_PROMPT_PAT ;;;
                   _emit_stdout LAUNCHED_FALLBACK_MSG ;;;
                   ret (Some child))))) in
     match returned with
     | Some c => ret c
     | None =>
         set_prompt_pat MAIN_PROMPT_PAT ;;;
         _emit_stdout LAUNCHED_MSG ;;;
         ret child
     end)
    (signal_signal sig ;;; ret tt).

Definition _alive : M bool :=
  let* c := gets child in
  match c with
  | None => ret false
  | Some cid => isalive cid
  end.

Definition _ensure_evolver : M unit :=
  let* live := _alive in
  if live : bool then ret tt
  else
    try_except
      (let* c := _spawn_and_handshake 30%Z in set_child (Some c))
      (except_Exception
         (fun exc => set_child None ;;; _emit_stderr (launch_error_msg exc))).

Definition _run_line (line : str) (timeout : option Z) : M (option str) :=
  let* c := self_child "sendline" in
  sendline c line ;;;
  let* c := self_child "expect" in
  let* pat := gets _prompt_pat in
  expect c pat timeout ;;;
  let* c := self_child "before" in
  before c.

(** The body of the loop of [do_execute]: the [try] statement that computes
    [out] for one line. *)
Definition run_one (ln : str) : M (option str) :=
  try_except (_run_line ln None)
    (fun e =>
       match e with
       | KeyboardInterrupt =>
           Some (let* c := self_child "sendintr" in
                 sendintr c ;;;
                 try_except
                   (let* c := self_child "expect" in
                    let* pat := gets _prompt_pat in
                    expect c pat (Some 2%Z))
                   (except_Exception (fun _ => ret tt)) ;;;
                 let* c := self_child "before" in
                 before c)
       | PexpectEOF _ =>
           Some (_emit_stderr EOF_MSG ;;;
                 set_child None ;;;
                 _ensure_evolver ;;;
                 ret (Some []))
       | _ => except_Exception (fun e => ret (Some (line_error_msg ln e))) e
       end).

(** The loop of [do_execute]: [outputs.append(out)] for each line in turn. *)
Fixpoint dispatch (lines : list str) (outputs : list (option str))
  : M (list (option str)) :=
  match lines with
  | [] => ret outputs
  | ln :: rest =>
      let* out := run_one ln in
      dispatch rest (outputs ++ [out])
  end.

(** The non-blank lines of a cell: [(l for l in code.splitlines() if l.strip())]. *)
Definition lines_of (code : str) : list str :=
  List.filter (fun l => truthy (strip l)) (splitlines code).

(** The statements of [do_execute] after the loop: join, forward, reply. *)
Definition finish (silent : bool) (outputs : list (option str)) : M reply :=
  let* text := lift (join outputs) in
  (if negb silent && truthy text then _emit_stdout text else ret tt) ;;;
  let* n := gets execution_count in
  ret (ReplyOk n).

(** [do_execute(code, silent)]; [store_history], [user_expressions] and
    [allow_stdin] are not used by the method. *)
Definition do_execute (code : str) (silent : bool) : M reply :=
  let code := rstrip_newlines code in
  if negb (truthy (strip code)) then
    let* n := gets execution_count in
    ret (ReplyOk n)
  else
    _ensure_evolver ;;;
    let* live := _alive in
    if negb live then
      let msg := NO_LAUNCH_MSG in
      (if negb silent then _emit_stderr msg else ret tt) ;;;
      let* n := gets execution_count in
      ret (ReplyError n (lit "RuntimeError") msg)
    else
      let* outputs := dispatch (lines_of code) [] in
      finish silent outputs.

End Kernel.

(** ** Vocabulary for the statements *)

Definition exn_of {A} (r : res A) : option exn :=
  match r with Ok _ => None | Exc e => Some e end.

Definition is_signal (ev : event) : bool :=
  match ev with Signal _ => true | _ => false end.

Definition is_spawn (ev : event) : bool :=
  match ev with Called (CSpawn _ _) => true | _ => false end.

Definition is_call (ev : event) : bool :=
  match ev with Called _ => true | _ => false end.

Definition no_spawn (ev : event) : bool := negb (is_spawn ev).

(** What [child.logfile = sys.__stderr__] adds to the log when [_debug] is
    set. *)
Definition logfile_event (k : kernel) (cid : nat) : list event :=
  if _debug k then [SetLogfile cid] else [].

Definition quiet (ev : event) : bool := negb (is_signal ev) && negb (is_spawn ev).

(** A computation is tame when it leaves the SIGINT disposition alone, logs
    neither a [signal.signal] nor a spawn, and cannot raise
    [KeyboardInterrupt] while no Python-level handler is installed. *)
Definition tame {A} (m : M A) : Prop :=
  forall k w,
    let '(r, k', w') := m k w in
    sigint w' = sigint w /\
    (python_level (sigint w) = false -> exn_of r <> Some KeyboardInterrupt) /\
    exists evs, trace w' = trace w ++ evs /\ forallb quiet evs = true.

(** What it takes for a cancellation to be handled to the end: the
    interrupt reaches the child, and no further SIGINT arrives during the
    two time units of re-synchronisation. *)
Definition interrupt_delivered (E : Environment) : Prop :=
  forall n cid, raises (answer_of n (CSendintr cid)) = None.

Definition resync_undisturbed (E : Environment) : Prop :=
  forall n cid pat,
    raises (answer_of n (CExpect cid pat (Some 2%Z))) <> Some KeyboardInterrupt.

(** Cancellation requests arrive only while the kernel waits, without
    limit, for the prompt that ends a line: no SIGINT during a handshake,
    a re-synchronisation, a send or a liveness check. *)
Definition cancelled_only_while_waiting (E : Environment) : Prop :=
  forall n c,
    raises (answer_of n c) = Some KeyboardInterrupt ->
    exists cid pat, c = CExpect cid pat None.

(** ** Scenarios: simulated children and starting states *)

Definition fresh_kernel : kernel := __init__ None None None None.

(** Inside [do_execute] ipykernel has [default_int_handler] installed. *)
Definition fresh_world : world :=
  {| tick := 0; sigint := default_int_handler; before_of := ∅; trace := [] |}.

(** A kernel whose session, spawned by call 0, has completed its handshake,
    and a world in which that session has been used. *)
Definition live_kernel : kernel := with_child (Some 0%nat) fresh_kernel.

Definition live_world : world :=
  {| tick := 4; sigint := default_int_handler;
     before_of := {[ 0%nat := lit "Evolver 2.70" ]}; trace := [] |}.

Definition answers_normally (out : str) : answer :=
  {| raises := None; text := out; alive := true |}.

(** A child that prompts after every line and echoes a fixed text. *)
Definition prompt_child : Environment := fun _ _ => answers_normally (lit "done.").

(** A child that prints nothing before its prompt. *)
Definition mute_child : Environment := fun _ _ => answers_normally [].

(** The user cancels the wait for the prompt and cancels again while the
    kernel waits for the child to come back. *)
Definition impatient_user : Environment := fun _ c =>
  match c with
  | CExpect _ _ None | CExpect _ _ (Some 2%Z) =>
      {| raises := Some KeyboardInterrupt; text := lit "partial"; alive := true |}
  | _ => answers_normally (lit "done.")
  end.

(** The user cancels once; the child does not come back to its prompt
    within two time units. *)
Definition cancel_once : Environment := fun _ c =>
  match c with
  | CExpect _ _ None =>
      {| raises := Some KeyboardInterrupt; text := lit "part"; alive := true |}
  | CExpect _ _ (Some 2%Z) =>
      {| raises := Some (PexpectTIMEOUT (lit "Timeout exceeded."));
         text := lit "partial"; alive := true |}
  | _ => answers_normally (lit "done.")
  end.

(** The child dies during call [n]. *)
Definition dies_at (n : nat) : Environment := fun m c =>
  if Nat.eqb m n then
    {| raises := Some (PexpectEOF (lit "End Of File (EOF).")); text := []; alive := false |}
  else answers_normally (lit "done.").


(** The calls numbered in [ns] time out. *)
Definition times_out_at (ns : list nat) : Environment := fun m c =>
  if existsb (Nat.eqb m) ns then
    {| raises := Some (PexpectTIMEOUT (lit "Timeout exceeded.")); text := []; alive := true |}
  else answers_normally (lit "done.").

(** The child dies during call [n] if that call is a wait without limit. *)
Definition dies_while_waiting (n : nat) : Environment := fun m c =>
  match c with
  | CExpect _ _ None =>
      if Nat.eqb m n then
        {| raises := Some (PexpectEOF (lit "End Of File (EOF).")); text := [];
           alive := false |}
      else answers_normally (lit "done.")
  | _ => answers_normally (lit "done.")
  end.

(** The user cancels the wait for the prompt; the interrupt makes the child
    exit, and the wait of two time units meets end-of-stream. *)
Definition dies_when_interrupted : Environment := fun _ c =>
  match c with
  | CExpect _ _ None =>
      {| raises := Some KeyboardInterrupt; text := lit "part"; alive := true |}
  | CExpect _ _ (Some 2%Z) =>
      {| raises := Some (PexpectEOF (lit "End Of File (EOF).")); text := lit "partial";
         alive := false |}
  | _ => answers_normally (lit "done.")
  end.

(** The user cancels the wait for the prompt and the interrupt cannot be
    written to the pseudo-terminal. *)
Definition interrupt_fails : Environment := fun _ c =>
  match c with
  | CExpect _ _ None =>
      {| raises := Some KeyboardInterrupt; text := lit "part"; alive := true |}
  | CSendintr _ =>
      {| raises := Some (OtherException (lit "[Errno 5] Input/output error"));
         text := []; alive := true |}
  | _ => answers_normally (lit "done.")
  end.

(** ** Vocabulary for the properties of whole runs *)

(** No line boundary inside. *)
Definition breakfree (s : str) : bool :=
  forallb (fun c => negb (islinebreak c)) s.

(** A computation respects a relation on states when every run of it,
    returning or raising, takes a state to a related one. *)
Definition respects {A} (R : relation (kernel * world)) (m : M A) : Prop :=
  forall k w, let '(_, k', w') := m k w in R (k, w) (k', w').

Definition same_sigint : relation (kernel * world) :=
  fun s s' => sigint s'.2 = sigint s.2.

(** The two patterns the kernel ever installs. *)
Definition known_pattern (p : str) : Prop :=
  p = MAIN_PROMPT_PAT \/ p = FALLBACK_PROMPT_PAT.

Definition same_config : relation (kernel * world) := fun s s' =>
  _evolver_cmd s'.1 = _evolver_cmd s.1 /\
  _default_datafile s'.1 = _default_datafile s.1 /\
  _debug s'.1 = _debug s.1 /\
  execution_count s'.1 = execution_count s.1 /\
  (known_pattern (_prompt_pat s.1) -> known_pattern (_prompt_pat s'.1)).

(** The ['execution_count'] entry of a reply. *)
Definition reply_count (r : reply) : Z :=
  match r with ReplyOk n | ReplyError n _ _ => n end.

(** Number of spawns in a stretch of the log. *)
Definition spawns (evs : list event) : nat :=
  List.length (List.filter is_spawn evs).

(** The log grows, by at most [n] spawns. *)
Definition adds_spawns (n : nat) : relation (kernel * world) := fun s s' =>
  exists evs, trace s'.2 = trace s.2 ++ evs /\ (spawns evs <= n)%nat.

(** An environment in which every call returns and the child is alive. *)
Definition well_behaved (E : Environment) : Prop :=
  forall n c, raises (answer_of n c) = None /\ alive (answer_of n c) = true.

(** What the loop logs for a list of lines when nothing fails: one send and
    one wait without limit per line. *)
Definition exchanges (cid : nat) (pat : str) (lines : list str) : list event :=
  flat_map (fun ln => [Called (CSendline cid ln); Called (CExpect cid pat None)])
    lines.

(** The texts the environment hands out at those waits, the first send
    being call number [t]. *)
Fixpoint transcript {E : Environment} (t : nat) (cid : nat) (pat : str)
    (lines : list str) : list str :=
  match lines with
  | [] => []
  | _ :: rest =>
      text (answer_of (S t) (CExpect cid pat None))
      :: transcript (S (S t)) cid pat rest
  end.

(** The error of [self.child.sendline] on a kernel without a session. *)
Definition NO_SESSION_ERROR : exn :=
  AttributeError (lit "'NoneType' object has no attribute 'sendline'").


(** ** Facts about the string functions *)

Lemma lstrip_by_nil p s : lstrip_by p s = [] <-> forallb p s = true.
Proof.
  induction s as [|c s IH]; simpl; [tauto|].
  destruct (p c); simpl; [exact IH|]. split; discriminate.
Qed.

Lemma rstrip_by_nil p s : rstrip_by p s = [] <-> forallb p s = true.
Proof.
  induction s as [|c s IH]; simpl; [tauto|].
  destruct (rstrip_by p s) as [|d t].
  - destruct (p c); simpl.
    + split; [intros _; apply IH; reflexivity | reflexivity].
    + split; discriminate.
  - split; [discriminate|]. intros H.
    apply andb_true_iff in H as [_ H]. apply IH in H. discriminate.
Qed.

Lemma forallb_lstrip_by p s : forallb p (lstrip_by p s) = forallb p s.
Proof.
  induction s as [|c s IH]; simpl; [reflexivity|].
  destruct (p c) eqn:Hc; simpl; [exact IH | now rewrite Hc].
Qed.

Lemma forallb_rstrip_by (p q : N -> bool) s :
  (forall c, q c = true -> p c = true) ->
  forallb p (rstrip_by q s) = forallb p s.
Proof.
  intros Hqp. induction s as [|c s IH]; simpl; [reflexivity|].
  destruct (rstrip_by q s) as [|d t] eqn:Hr.
  - apply rstrip_by_nil in Hr.
    assert (Hs : forallb p s = true).
    { clear IH. induction s as [|x s IHs]; simpl in *; [reflexivity|].
      apply andb_true_iff in Hr as [Hx Hr]. now rewrite (Hqp _ Hx), IHs. }
    rewrite Hs, andb_true_r.
    destruct (q c) eqn:Hc; simpl; [now rewrite (Hqp _ Hc) | now rewrite andb_true_r].
  - simpl in *. now rewrite IH.
Qed.

Lemma strip_nil s : strip s = [] <-> blank s = true.
Proof.
  unfold strip, blank. rewrite rstrip_by_nil, forallb_lstrip_by. tauto.
Qed.

(** The test at the head of [do_execute] is the test for a blank cell. *)
Lemma truthy_strip_rstrip code :
  truthy (strip (rstrip_newlines code)) = negb (blank code).
Proof.
  assert (Hb : blank (rstrip_newlines code) = blank code).
  { apply forallb_rstrip_by. intros c Hc. apply N.eqb_eq in Hc. now subst c. }
  destruct (strip (rstrip_newlines code)) as [|c t] eqn:Hs; simpl.
  - apply strip_nil in Hs. rewrite Hb in Hs. now rewrite Hs.
  - destruct (blank code) eqn:Hbl; [|reflexivity].
    apply strip_nil in Hb. congruence.
Qed.

(** ** Tame computations

    The rules below build tameness along the syntax of a method, so that
    what holds of the handshake is read off its text rather than found by
    running it through every answer the child can give. *)

Section Tame.
Context {E : Environment}.

Lemma tame_ret {A} (a : A) : tame (ret a).
Proof.
  intros k w. simpl. repeat split; [discriminate|].
  exists []. now rewrite app_nil_r.
Qed.

Lemma tame_gets {A} (f : kernel -> A) : tame (gets f).
Proof.
  intros k w. simpl. repeat split; [discriminate|].
  exists []. now rewrite app_nil_r.
Qed.

Lemma tame_getsw {A} (f : world -> A) : tame (getsw f).
Proof.
  intros k w. simpl. repeat split; [discriminate|].
  exists []. now rewrite app_nil_r.
Qed.

Lemma tame_set_child c : tame (set_child c).
Proof.
  intros k w. simpl. repeat split; [discriminate|].
  exists []. now rewrite app_nil_r.
Qed.

Lemma tame_set_prompt_pat p : tame (set_prompt_pat p).
Proof.
  intros k w. simpl. repeat split; [discriminate|].
  exists []. now rewrite app_nil_r.
Qed.

Lemma tame_emit ev : quiet ev = true -> tame (emit ev).
Proof.
  intros Hq k w. simpl. repeat split; [discriminate|].
  exists [ev]. simpl. now rewrite Hq.
Qed.

(** What one call does to the state, whatever the answer. *)
Lemma consult_spec c k w :
  exists r,
    consult c k w =
      (r, k,
       {| tick := S (tick w); sigint := sigint w;
          before_of :=
            match c with
            | CExpect cid _ _ => <[cid := text (answer_of (tick w) c)]> (before_of w)
            | _ => before_of w
            end;
          trace := trace w ++ [Called c] |}) /\
    (python_level (sigint w) = false -> exn_of r <> Some KeyboardInterrupt).
Proof.
  unfold consult.
  destruct (raises (answer_of (tick w) c)) as [[]|]; simpl;
    try (eexists; split; [reflexivity | discriminate]).
  destruct (python_level (sigint w)); eexists; (split; [reflexivity|]);
    simpl; congruence.
Qed.

Lemma tame_consult c : quiet (Called c) = true -> tame (consult c).
Proof.
  intros Hq k w. destruct (consult_spec c k w) as (r & -> & Hki). simpl.
  split; [reflexivity|]. split; [exact Hki|].
  exists [Called c]. simpl. now rewrite Hq.
Qed.

Lemma tame_bind {A B} (m : M A) (f : A -> M B) :
  tame m -> (forall a, tame (f a)) -> tame (bind m f).
Proof.
  intros Hm Hf k w. unfold bind. specialize (Hm k w).
  destruct (m k w) as [[[a|e] k1] w1].
  - destruct Hm as (Hs & _ & evs & Ht & Hq).
    specialize (Hf a k1 w1). destruct (f a k1 w1) as [[r k2] w2].
    destruct Hf as (Hs' & Hk & evs' & Ht' & Hq').
    split; [congruence|]. split.
    + intros Hp. apply Hk. now rewrite Hs.
    + exists (evs ++ evs'). rewrite Ht', Ht, <- app_assoc. split; [reflexivity|].
      now rewrite forallb_app, Hq, Hq'.
  - exact Hm.
Qed.

Lemma tame_try_except {A} (m : M A) clauses :
  tame m -> (forall e h, clauses e = Some h -> tame h) ->
  tame (try_except m clauses).
Proof.
  intros Hm Hc k w. unfold try_except. specialize (Hm k w).
  destruct (m k w) as [[[a|e] k1] w1]; [exact Hm|].
  destruct (clauses e) as [h|] eqn:Hh; [|exact Hm].
  destruct Hm as (Hs & _ & evs & Ht & Hq).
  specialize (Hc e h Hh k1 w1). destruct (h k1 w1) as [[r k2] w2].
  destruct Hc as (Hs' & Hk & evs' & Ht' & Hq').
  split; [congruence|]. split.
  - intros Hp. apply Hk. now rewrite Hs.
  - exists (evs ++ evs'). rewrite Ht', Ht, <- app_assoc. split; [reflexivity|].
    now rewrite forallb_app, Hq, Hq'.
Qed.

Lemma tame_except_TIMEOUT {A} (m h : M A) :
  tame m -> tame h -> tame (try_except m (except_TIMEOUT h)).
Proof.
  intros Hm Hh. apply tame_try_except; [exact Hm|].
  intros [] h'; simpl; try discriminate. now intros [= <-].
Qed.

Lemma tame_except_Exception {A} (m : M A) (h : exn -> M A) :
  tame m -> (forall e, tame (h e)) -> tame (try_except m (except_Exception h)).
Proof.
  intros Hm Hh. apply tame_try_except; [exact Hm|].
  intros e h'. unfold except_Exception. destruct (is_Exception e); [|discriminate].
  intros [= <-]. apply Hh.
Qed.

End Tame.

Ltac tame_tac :=
  unfold expect, sendline, sendintr, isalive, before, pexpect_spawn,
    _emit_stderr, _emit_stdout;
  repeat first
    [ match goal with
      | |- forall _, tame _ => intro
      | |- tame (if ?b then _ else _) => destruct b
      | |- tame (match ?o with Some _ => _ | None => _ end) => destruct o
      end
    | apply tame_ret | apply tame_gets | apply tame_getsw | apply tame_set_child
    | apply tame_set_prompt_pat
    | apply tame_emit; reflexivity | apply tame_consult; reflexivity
    | apply tame_except_TIMEOUT | apply tame_except_Exception
    | apply tame_bind ].

(** ** The handshake *)

Section Handshake.
Context {E : Environment}.

(** Every run of the handshake, whatever the child answers: the SIGINT
    disposition is back, no [KeyboardInterrupt] comes out, and the log grows
    by the switch to [SIG_DFL], one spawn, events that are neither, and the
    switch back. *)
Lemma handshake_shape timeout k w :
  let '(r, k', w') := _spawn_and_handshake timeout k w in
  sigint w' = sigint w /\ exn_of r <> Some KeyboardInterrupt /\
  exists evs,
    trace w' = trace w ++ Signal SIG_DFL
                 :: Called (CSpawn (_evolver_cmd k) timeout)
                 :: evs ++ [Signal (sigint w)] /\
    forallb quiet evs = true.
Proof.
  unfold _spawn_and_handshake.
  match goal with
  | |- context [bind (pexpect_spawn _ _) ?f] =>
      assert (Hrest : forall c, tame (f c)) by (intro c; tame_tac)
  end.
  unfold bind at 1, signal_signal at 1, try_finally.
  unfold bind at 1, gets at 1. unfold bind at 1, pexpect_spawn at 1.
  unfold bind at 1, getsw at 1. unfold bind at 1.
  match goal with
  | |- context [consult ?c ?k1 ?w1] =>
      destruct (consult_spec c k1 w1) as (r0 & -> & Hki)
  end.
  specialize (Hki eq_refl).
  destruct r0 as [a|e]; cbn [ret tick].
  - match goal with
    | |- context [bind ?m ?f ?k1 ?w1] =>
        specialize (Hrest (tick w) k1 w1); cbv beta in Hrest;
        destruct (bind m f k1 w1) as [[r k'] w']
    end.
    destruct Hrest as (Hs & Hk & evs & Ht & Hq). cbn in *.
    split; [reflexivity|]. split; [now apply Hk|].
    exists evs. rewrite Ht, <- !app_assoc. now split.
  - cbn. split; [reflexivity|]. split; [exact Hki|].
    exists []. rewrite <- !app_assoc. now split.
Qed.

(** C10. [_spawn_and_handshake] restores the SIGINT handler it found: after
    every run, whether it returns a child (main prompt or fallback prompt)
    or lets an exception out, the disposition is the one from before the
    call; in between it was [SIG_DFL], and these two are the only changes
    of disposition the run makes. *)
Theorem handshake_restores_sigint timeout k w :
  let '(r, k', w') := _spawn_and_handshake timeout k w in
  sigint w' = sigint w /\
  exists evs,
    trace w' = trace w ++ [Signal SIG_DFL] ++ evs ++ [Signal (sigint w)] /\
    forallb (fun ev => negb (is_signal ev)) evs = true.
Proof.
  pose proof (handshake_shape timeout k w) as H.
  destruct (_spawn_and_handshake timeout k w) as [[r k'] w'].
  destruct H as (Hs & _ & evs & Ht & Hq).
  split; [exact Hs|].
  exists (Called (CSpawn (_evolver_cmd k) timeout) :: evs).
  split; [exact Ht|]. simpl.
  apply forallb_forall. intros ev Hin.
  rewrite forallb_forall in Hq. specialize (Hq ev Hin).
  unfold quiet in Hq. now apply andb_true_iff in Hq as [-> _].
Qed.

End Handshake.

(** ** Two paths through the handshake *)

Ltac exec_handshake :=
  cbv beta iota zeta delta
    [_spawn_and_handshake pexpect_spawn signal_signal
     try_except try_finally bind expect sendline
     consult _emit_stderr _emit_stdout emit log set_prompt_pat set_child
     gets getsw ret raise except_TIMEOUT except_Exception is_Exception];
  simpl.

Section Paths.
Context {E : Environment}.

(** C4. A handshake in which the first wait for the main prompt times out:
    the kernel sends one empty line and waits once more, up to 5, for the
    main prompt, and sends nothing else after that; if this wait times out
    as well, the active pattern of the kernel becomes the literal ["> "],
    the session it holds is not touched, the notice about the fallback goes
    to stderr (and one about the launch to stdout), and the handshake
    returns the child. *)
Theorem handshake_falls_back timeout k w m1 :
  let t := tick w in
  let file_wait := raises (answer_of (S t) (CExpect t FILE_PROMPT_PAT (Some timeout))) in
  let last_wait :=
    raises (answer_of (S (S (S (S (S t))))) (CExpect t MAIN_PROMPT_PAT (Some 5%Z))) in
  raises (answer_of t (CSpawn (_evolver_cmd k) timeout)) = None ->
  (file_wait = None \/ exists m0, file_wait = Some (PexpectTIMEOUT m0)) ->
  raises (answer_of (S (S t)) (CSendline t (_default_datafile k))) = None ->
  raises (answer_of (S (S (S t))) (CExpect t MAIN_PROMPT_PAT (Some timeout)))
  = Some (PexpectTIMEOUT m1) ->
  raises (answer_of (S (S (S (S t)))) (CSendline t [])) = None ->
  exists r k' w' evs,
    _spawn_and_handshake timeout k w = (r, k', w') /\
    trace w' =
      trace w ++ [Signal SIG_DFL; Called (CSpawn (_evolver_cmd k) timeout)]
        ++ logfile_event k t
        ++ [Called (CExpect t FILE_PROMPT_PAT (Some timeout))]
        ++ match file_wait with
           | Some _ => [Stream stderr NO_FILE_PROMPT_MSG]
           | None => []
           end
        ++ [Called (CSendline t (_default_datafile k));
            Called (CExpect t MAIN_PROMPT_PAT (Some timeout));
            Called (CSendline t []);
            Called (CExpect t MAIN_PROMPT_PAT (Some 5%Z))]
        ++ evs /\
    forallb (fun ev => negb (is_call ev)) evs = true /\
    ((exists m2, last_wait = Some (PexpectTIMEOUT m2)) ->
     r = Ok t /\ k' = with_prompt_pat FALLBACK_PROMPT_PAT k /\
     _prompt_pat k' = lit "> " /\ child k' = child k /\
     sigint w' = sigint w /\
     evs = [Stream stderr
              (lit "[EvolverKernel] No vi prompt principal; uso fallback '> '." ++ [LF]);
            Stream stdout
              (lit "[EvolverKernel] Evolver lanzado con prompt fallback." ++ [LF]);
            Signal (sigint w)]).
Proof.
  intros t file_wait last_wait Hspawn Hfile Hsend Hmain Hnudge.
  subst t file_wait last_wait. unfold logfile_event.
  exec_handshake. rewrite Hspawn. exec_handshake.
  destruct (_debug k); exec_handshake.
  all: destruct Hfile as [Hfile|[m0 Hfile]]; rewrite Hfile; exec_handshake.
  all: rewrite Hsend; exec_handshake; rewrite Hmain; exec_handshake.
  all: rewrite Hnudge; exec_handshake.
  all: destruct (raises (answer_of _ (CExpect _ _ (Some 5%Z)))) as [[]|] eqn:Hlast;
    exec_handshake.
  all: do 4 eexists; (split; [reflexivity|]); cbn [trace];
    rewrite <- ?app_assoc; cbn [app];
    (split; [reflexivity|]); (split; [reflexivity|]);
    intros [m2 [=]]; subst; repeat split.
Qed.

End Paths.

(** ** Keeping a session alive *)

Section Ensure.
Context {E : Environment}.

(** With no session at hand, [_ensure_evolver] runs the handshake once,
    which spawns once, and whatever [Exception] the handshake raises ends
    in [self.child = None] and a notice; no exception is left to come out
    (a SIGINT during the handshake raises none, see [consult]). *)
Lemma ensure_respawn k w :
  child k = None ->
  let '(r, k', w') := _ensure_evolver k w in
  r = Ok tt /\ sigint w' = sigint w /\
  exists evs,
    trace w' = trace w ++ Signal SIG_DFL
                 :: Called (CSpawn (_evolver_cmd k) 30%Z) :: evs /\
    forallb no_spawn evs = true.
Proof.
  intros Hc. unfold _ensure_evolver, _alive.
  unfold bind at 1. unfold bind at 1. unfold gets at 1. rewrite Hc.
  cbn [ret]. unfold try_except, bind.
  pose proof (handshake_shape 30%Z k w) as H.
  destruct (_spawn_and_handshake 30%Z k w) as [[[c|e] k1] w1];
    destruct H as (Hs & Hki & evs & Ht & Hq).
  - cbn. split; [reflexivity|]. split; [exact Hs|].
    exists (evs ++ [Signal (sigint w)]). split; [exact Ht|].
    rewrite forallb_app. cbn. rewrite andb_true_r.
    apply forallb_forall. intros ev Hin. rewrite forallb_forall in Hq.
    specialize (Hq ev Hin). unfold quiet in Hq. unfold no_spawn.
    now apply andb_true_iff in Hq as [_ ->].
  - unfold except_Exception.
    destruct e; cbn in Hki; try congruence; cbn;
      (split; [reflexivity|]); (split; [exact Hs|]);
      (eexists (evs ++ [Signal (sigint w); _]));
      rewrite Ht, <- !app_assoc; cbn; rewrite <- !app_assoc;
      (split; [reflexivity|]);
      rewrite forallb_app; cbn; rewrite andb_true_r;
      apply forallb_forall; intros ev Hin; rewrite forallb_forall in Hq;
      specialize (Hq ev Hin); unfold quiet in Hq; unfold no_spawn;
      now apply andb_true_iff in Hq as [_ ->].
Qed.

End Ensure.

(** ** One line of a cell *)

(** Symbolic execution: unfold the methods down to the calls, then split on
    the next answer of the environment. *)
Ltac exec :=
  cbv beta iota zeta delta
    [run_one _run_line self_child try_except try_finally bind expect sendline sendintr
     isalive before consult _emit_stderr _emit_stdout emit set_prompt_pat set_child
     gets getsw ret raise except_TIMEOUT except_Exception is_Exception lift];
  simpl.

Ltac step :=
  exec;
  match goal with
  | |- context [raises (answer_of ?n ?c)] =>
      destruct (raises (answer_of n c)) as [[]|] eqn:?
  | |- context [if python_level ?h then _ else _] => destruct (python_level h) eqn:?
  end.

Section Lines.
Context {E : Environment}.


Lemma waiting_resync :
  cancelled_only_while_waiting E -> resync_undisturbed E.
Proof. intros H n cid pat Hx. destruct (H _ _ Hx) as (c & p & [=]). Qed.

(** When cancellations arrive only during the waits for a line's prompt and
    interrupts are delivered, every line yields an output, and the output
    is a string. *)
Lemma run_one_returns ln k w :
  cancelled_only_while_waiting E -> interrupt_delivered E ->
  exists o k' w', run_one ln k w = (Ok (Some o), k', w').
Proof.
  intros Hw Hi. pose proof (waiting_resync Hw) as Hr. destruct k as [cmd df dbg [cid|] pat ec].
  all: repeat step. all: exec.
  all: try match goal with
       | H : raises (answer_of _ (CSendintr _)) = Some _ |- _ => rewrite Hi in H; discriminate
       | H : raises (answer_of _ (CExpect _ _ (Some 2%Z))) = Some KeyboardInterrupt |- _ =>
           apply Hr in H; contradiction
       end.
  all: try (rewrite ?lookup_insert_eq; eauto; fail).
  all: match goal with
       | |- context [_ensure_evolver ?k ?w] =>
           pose proof (ensure_respawn k w eq_refl) as He;
           destruct (_ensure_evolver k w) as [[r k'] w'];
           destruct He as (-> & _); eauto
       end.
Qed.


Lemma dispatch_cons ln rest outputs k w o k' w' :
  run_one ln k w = (Ok o, k', w') ->
  dispatch (ln :: rest) outputs k w = dispatch rest (outputs ++ [o]) k' w'.
Proof. intros H. cbn [dispatch]. unfold bind. now rewrite H. Qed.

Lemma finish_status silent outs k w r k' w' :
  finish silent outs k w = (Ok r, k', w') -> status_ok r = true.
Proof.
  unfold finish, bind, lift, gets, ret, _emit_stdout, emit.
  destruct (join outs) as [t|e]; [|discriminate].
  destruct (negb silent && truthy t); intros [= <- _ _]; reflexivity.
Qed.



Lemma dispatch_app l1 : forall l2 outputs k w,
  dispatch (l1 ++ l2) outputs k w = bind (dispatch l1 outputs) (dispatch l2) k w.
Proof.
  induction l1 as [|ln l1 IH]; intros l2 outputs k w; [reflexivity|].
  cbn [app dispatch]. unfold bind.
  destruct (run_one ln k w) as [[[o|e] k1] w1]; [|reflexivity].
  rewrite IH. reflexivity.
Qed.

(** The loop appends one output per line. *)
Lemma dispatch_extends lines : forall outputs k w outs k' w',
  dispatch lines outputs k w = (Ok outs, k', w') ->
  exists new, outs = outputs ++ new /\ List.length new = List.length lines.
Proof.
  induction lines as [|ln rest IH]; intros outputs k w outs k' w'; cbn [dispatch].
  - intros [= <- _ _]. exists []. now rewrite app_nil_r.
  - unfold bind. destruct (run_one ln k w) as [[[o|e] k1] w1]; [|discriminate].
    intros H. apply IH in H as (new & -> & Hl). exists (o :: new).
    rewrite <- app_assoc. split; [reflexivity|]. cbn. now rewrite Hl.
Qed.

End Lines.

(** ** A whole cell *)

Section Execute.
Context {E : Environment}.

(** Under the same two conditions the loop runs to its end, whatever the
    lines and whatever else the child does. *)
Lemma dispatch_returns lines :
  cancelled_only_while_waiting E -> interrupt_delivered E ->
  forall outputs k w,
    Forall is_Some outputs ->
    exists outs k' w',
      dispatch lines outputs k w = (Ok outs, k', w') /\ Forall is_Some outs.
Proof.
  intros Hw Hi. induction lines as [|ln rest IH]; intros outputs k w Hall.
  - exists outputs, k, w. now split.
  - destruct (run_one_returns ln k w Hw Hi) as (o & k1 & w1 & Hone).
    rewrite (dispatch_cons _ _ _ _ _ _ _ _ Hone).
    apply IH. apply Forall_app. split; [exact Hall|].
    constructor; [now exists o | constructor].
Qed.

Lemma join_strings outputs :
  Forall is_Some outputs -> exists t, join outputs = Ok t.
Proof.
  induction 1 as [|o outs [s ->] _ [t IH]]; simpl; [now exists []|].
  rewrite IH. now eexists.
Qed.

(** C6. A cell that is empty or all whitespace: [do_execute] replies ok at
    once; [self] and the world are untouched, so nothing was spawned, sent or
    emitted. *)
Theorem blank_cell_short_circuit code silent k w :
  blank code = true ->
  do_execute code silent k w = (Ok (ReplyOk (execution_count k)), k, w).
Proof.
  intros Hb. unfold do_execute. rewrite truthy_strip_rstrip, Hb. reflexivity.
Qed.

(** [do_execute] past its two guards. *)
Lemma do_execute_live code silent k w k1 w1 k2 w2 :
  blank code = false ->
  _ensure_evolver k w = (Ok tt, k1, w1) ->
  _alive k1 w1 = (Ok true, k2, w2) ->
  do_execute code silent k w
  = bind (dispatch (lines_of (rstrip_newlines code)) []) (finish silent) k2 w2.
Proof.
  intros Hb He Ha. unfold do_execute. rewrite truthy_strip_rstrip, Hb. cbn [negb].
  unfold bind at 1. rewrite He. unfold bind at 1. rewrite Ha. reflexivity.
Qed.

(** C1, as amended.  For a cell that is not blank: when a live session
    exists after [_ensure_evolver], [do_execute] returns a reply with status
    ok whatever the [_run_line] of any line raises (end-of-stream, a
    timeout, any other error, a cancellation), provided that cancellation
    requests arrive only while the kernel waits for the prompt that ends a
    line and that the interrupt then sent to the child is delivered; and a
    reply with status error is only ever the one built when no session is
    alive after [_ensure_evolver]. *)
Theorem execute_status code silent k w :
  blank code = false ->
  (forall k1 w1 k2 w2,
      _ensure_evolver k w = (Ok tt, k1, w1) ->
      _alive k1 w1 = (Ok true, k2, w2) ->
      cancelled_only_while_waiting E -> interrupt_delivered E ->
      exists k' w',
        do_execute code silent k w = (Ok (ReplyOk (execution_count k')), k', w')) /\
  (forall r k' w',
      do_execute code silent k w = (Ok r, k', w') ->
      status_ok r = false ->
      exists k1 w1 k2 w2,
        _ensure_evolver k w = (Ok tt, k1, w1) /\
        _alive k1 w1 = (Ok false, k2, w2) /\
        r = ReplyError (execution_count k2) (lit "RuntimeError") NO_LAUNCH_MSG).
Proof.
  intros Hb. split.
  - intros k1 w1 k2 w2 He Ha Hw Hi.
    rewrite (do_execute_live _ _ _ _ _ _ _ _ Hb He Ha). unfold bind.
    destruct (dispatch_returns (lines_of (rstrip_newlines code)) Hw Hi [] k2 w2)
      as (outs & k3 & w3 & -> & Hall); [constructor|].
    destruct (join_strings outs Hall) as [t Ht].
    unfold finish, bind, lift. rewrite Ht.
    destruct (negb silent && truthy t); cbn; eauto.
  - intros r k' w'. unfold do_execute. rewrite truthy_strip_rstrip, Hb. cbn [negb].
    unfold bind at 1.
    destruct (_ensure_evolver k w) as [[[[]|e] k1] w1] eqn:He; [|discriminate].
    unfold bind at 1.
    destruct (_alive k1 w1) as [[[[]|] k2] w2] eqn:Ha; [| |discriminate]; cbn [negb].
    + unfold bind at 1.
      destruct (dispatch _ _ k2 w2) as [[[outs|e] k3] w3]; [|discriminate].
      intros Hf Hs. apply finish_status in Hf. congruence.
    + intros H Hs. exists k1, w1, k2, w2. split; [reflexivity|]. split; [exact Ha|].
      revert H. destruct silent; cbn; intros [= <- _ _]; reflexivity.
Qed.

(** C2, as amended.  A cell with a line whose [_run_line] ends in
    end-of-stream, the lines before it having yielded their outputs: the
    notice goes to stderr, the session is dropped, [_ensure_evolver] is run
    once on the kernel without a session and returns, having spawned exactly
    once; the line's output is the empty string, the loop goes on through
    the remaining lines, and [do_execute] replies with status ok.  As in C1,
    cancellation requests arrive only during the waits for a line's prompt
    (so not while the session is respawned) and interrupts are delivered. *)
Theorem eof_line_respawns code silent k w k1 w1 k2 w2 pre ln post outs k3 w3 m k4 w4 :
  blank code = false ->
  _ensure_evolver k w = (Ok tt, k1, w1) ->
  _alive k1 w1 = (Ok true, k2, w2) ->
  lines_of (rstrip_newlines code) = pre ++ ln :: post ->
  dispatch pre [] k2 w2 = (Ok outs, k3, w3) ->
  _run_line ln None k3 w3 = (Exc (PexpectEOF m), k4, w4) ->
  cancelled_only_while_waiting E -> interrupt_delivered E ->
  let notice :=
    Stream stderr
      (lit "[EvolverKernel] Evolver muri" ++ [243] ++ lit " (EOF); reinicio." ++ [LF]) in
  exists k5 w5 evs later k6 w6 w',
    child (with_child None k4) = None /\
    _ensure_evolver (with_child None k4) (log notice w4) = (Ok tt, k5, w5) /\
    trace w5 = trace w4 ++ notice :: Signal SIG_DFL
                 :: Called (CSpawn (_evolver_cmd k4) 30%Z) :: evs /\
    forallb no_spawn evs = true /\
    run_one ln k3 w3 = (Ok (Some []), k5, w5) /\
    dispatch post (outs ++ [Some []]) k5 w5 = (Ok (outs ++ Some [] :: later), k6, w6) /\
    List.length later = List.length post /\
    dispatch (lines_of (rstrip_newlines code)) [] k2 w2
    = (Ok (outs ++ Some [] :: later), k6, w6) /\
    do_execute code silent k w = (Ok (ReplyOk (execution_count k6)), k6, w').
Proof.
  intros Hb He Ha Hl Hpre H Hw Hi notice.
  pose proof (ensure_respawn (with_child None k4) (log notice w4) eq_refl) as Hens.
  destruct (_ensure_evolver (with_child None k4) (log notice w4))
    as [[r k5] w5] eqn:Hx.
  destruct Hens as (-> & _ & evs & Ht & Hq).
  assert (Hone : run_one ln k3 w3 = (Ok (Some []), k5, w5)).
  { unfold run_one, try_except. rewrite H.
    unfold bind, _emit_stderr, emit, set_child.
    change (log (Stream stderr EOF_MSG) w4) with (log notice w4). now rewrite Hx. }
  assert (Hall : Forall is_Some outs).
  { destruct (dispatch_returns pre Hw Hi [] k2 w2) as (o & ka & wa & Hd & Hf);
      [constructor|]. rewrite Hpre in Hd. now injection Hd as <- _ _. }
  destruct (dispatch_returns post Hw Hi (outs ++ [Some []]) k5 w5)
    as (outs' & k6 & w6 & Hd & Hall').
  { apply Forall_app. split; [exact Hall|]. constructor; [now eexists|constructor]. }
  destruct (dispatch_extends _ _ _ _ _ _ _ Hd) as (later & -> & Hlen).
  rewrite <- app_assoc in Hd, Hall'. cbn [app] in Hd, Hall'.
  assert (Hloop : dispatch (lines_of (rstrip_newlines code)) [] k2 w2
                  = (Ok (outs ++ Some [] :: later), k6, w6)).
  { rewrite Hl, dispatch_app. unfold bind. rewrite Hpre.
    now rewrite (dispatch_cons _ _ _ _ _ _ _ _ Hone). }
  destruct (join_strings _ Hall') as [t Hj].
  exists k5, w5, evs, later, k6, w6.
  exists (if negb silent && truthy t then log (Stream stdout t) w6 else w6).
  split; [reflexivity|]. split; [reflexivity|]. split.
  { rewrite Ht. cbn. now rewrite <- app_assoc. }
  split; [exact Hq|]. split; [exact Hone|]. split; [exact Hd|].
  split; [exact Hlen|]. split; [exact Hloop|].
  rewrite (do_execute_live _ _ _ _ _ _ _ _ Hb He Ha). unfold bind. rewrite Hloop.
  unfold finish, bind, lift. rewrite Hj.
  destruct (negb silent && truthy t); reflexivity.
Qed.

(** C8, as amended.  After the loop the joined text goes to stdout exactly
    when [silent] is not set and the text is not empty; otherwise nothing is
    forwarded. *)
Theorem forwarding_rule code silent k w k1 w1 k2 w2 outputs k3 w3 t :
  blank code = false ->
  _ensure_evolver k w = (Ok tt, k1, w1) ->
  _alive k1 w1 = (Ok true, k2, w2) ->
  dispatch (lines_of (rstrip_newlines code)) [] k2 w2 = (Ok outputs, k3, w3) ->
  join outputs = Ok t ->
  do_execute code silent k w
  = (Ok (ReplyOk (execution_count k3)), k3,
     if negb silent && truthy t then log (Stream stdout t) w3 else w3).
Proof.
  intros Hb He Ha Hd Hj.
  rewrite (do_execute_live _ _ _ _ _ _ _ _ Hb He Ha). unfold bind. rewrite Hd.
  unfold finish, bind, lift. rewrite Hj.
  destruct (negb silent && truthy t); reflexivity.
Qed.

End Execute.

(** ** The statements at work on simulated children *)

(** C6 at a cell of a space, a tab and a newline. *)
Lemma blank_cell_short_circuit_witness :
  blank [32; 9; LF] = true /\
  do_execute (E := prompt_child) [32; 9; LF] false fresh_kernel fresh_world
  = (Ok (ReplyOk 0), fresh_kernel, fresh_world).
Proof.
  split; [reflexivity|].
  apply (blank_cell_short_circuit (E := prompt_child)). reflexivity.
Defined.


(** The scenario [dies_while_waiting] has no cancellation and no failing
    interrupt. *)
Lemma dies_while_waiting_no_cancel n :
  cancelled_only_while_waiting (dies_while_waiting n).
Proof.
  intros m c H. destruct c as [| cid pat [z|] | | |]; cbn in H; try discriminate.
  destruct (Nat.eqb m n); discriminate.
Qed.

Lemma dies_while_waiting_delivered n : interrupt_delivered (dies_while_waiting n).
Proof. intros m cid. reflexivity. Qed.

(** C2 (amended) on a cell of three lines whose child dies during the wait
    for the prompt of the second: the first line's output, the empty string,
    and the output of the third line, read from the session that call 9
    spawned; the reply is ok. *)
Lemma eof_line_respawns_witness :
  let E := dies_while_waiting 8 in
  let code := lit "a" ++ [LF] ++ lit "b" ++ [LF] ++ lit "c" in
  let x := _ensure_evolver fresh_kernel fresh_world in
  let y := _alive x.1.2 x.2 in
  let z := dispatch [lit "a"] [] y.1.2 y.2 in
  let u := _run_line (lit "b") None z.1.2 z.2 in
  blank code = false /\
  x = (Ok tt, x.1.2, x.2) /\ y = (Ok true, y.1.2, y.2) /\
  lines_of (rstrip_newlines code) = [lit "a"] ++ lit "b" :: [lit "c"] /\
  z = (Ok [Some (lit "done.")], z.1.2, z.2) /\
  u = (Exc (PexpectEOF (lit "End Of File (EOF).")), u.1.2, u.2) /\
  exists k5 w5 k6 w6 w',
    run_one (lit "b") z.1.2 z.2 = (Ok (Some []), k5, w5) /\
    child z.1.2 = Some 0%nat /\ child k5 = Some 9%nat /\
    dispatch (lines_of (rstrip_newlines code)) [] y.1.2 y.2
    = (Ok [Some (lit "done."); Some []; Some (lit "done.")], k6, w6) /\
    do_execute code false fresh_kernel fresh_world = (Ok (ReplyOk 0), k6, w').
Proof.
  intros E code x y z u.
  assert (Hb : blank code = false) by reflexivity.
  assert (Hx : x = (Ok tt, x.1.2, x.2)) by (vm_compute; reflexivity).
  assert (Hy : y = (Ok true, y.1.2, y.2)) by (vm_compute; reflexivity).
  assert (Hl : lines_of (rstrip_newlines code) = [lit "a"] ++ lit "b" :: [lit "c"])
    by (vm_compute; reflexivity).
  assert (Hz : z = (Ok [Some (lit "done.")], z.1.2, z.2)) by (vm_compute; reflexivity).
  assert (Hu : u = (Exc (PexpectEOF (lit "End Of File (EOF).")), u.1.2, u.2))
    by (vm_compute; reflexivity).
  repeat (split; [assumption|]).
  destruct (eof_line_respawns (E := E) code false fresh_kernel fresh_world
              x.1.2 x.2 y.1.2 y.2 [lit "a"] (lit "b") [lit "c"] _ z.1.2 z.2 _ u.1.2 u.2
              Hb Hx Hy Hl Hz Hu (dies_while_waiting_no_cancel 8)
              (dies_while_waiting_delivered 8))
    as (k5 & w5 & evs & later & k6 & w6 & w' & _ & Hens & _ & _ & Hone & Hd & _ & Hloop & Hdo).
  assert (Hk : child k5 = Some 9%nat).
  { apply (f_equal (fun p => child p.1.2)) in Hens. cbn [fst snd] in Hens.
    rewrite <- Hens. vm_compute. reflexivity. }
  assert (Hlater : later = [Some (lit "done.")]).
  { pose proof (f_equal (fun p => p.1.1) Hloop) as Ho. cbn [fst] in Ho.
    vm_compute in Ho. now injection Ho as <-. }
  assert (Hec : execution_count k6 = 0%Z).
  { pose proof (f_equal (fun p => execution_count p.1.2) Hloop) as Ho.
    cbn [fst snd] in Ho. rewrite <- Ho. vm_compute. reflexivity. }
  rewrite Hlater in Hloop. rewrite Hec in Hdo.
  exists k5, w5, k6, w6, w'. split; [exact Hone|]. split; [reflexivity|].
  split; [exact Hk|]. split; [exact Hloop | exact Hdo].
Defined.


(** C4 for a child that never shows the main prompt. *)
Lemma handshake_falls_back_witness :
  let E := times_out_at [3; 5]%nat in
  raises (answer_of 0 (CSpawn (lit "evolver") 30%Z)) = None /\
  raises (answer_of 1 (CExpect 0 FILE_PROMPT_PAT (Some 30%Z))) = None /\
  raises (answer_of 2 (CSendline 0 [])) = None /\
  raises (answer_of 3 (CExpect 0 MAIN_PROMPT_PAT (Some 30%Z)))
  = Some (PexpectTIMEOUT (lit "Timeout exceeded.")) /\
  raises (answer_of 4 (CSendline 0 [])) = None /\
  raises (answer_of 5 (CExpect 0 MAIN_PROMPT_PAT (Some 5%Z)))
  = Some (PexpectTIMEOUT (lit "Timeout exceeded.")) /\
  _prompt_pat fresh_kernel = lit "Enter command:\s*" /\
  exists k' w',
    _spawn_and_handshake 30%Z fresh_kernel fresh_world = (Ok 0%nat, k', w') /\
    _prompt_pat k' = lit "> " /\ child k' = None /\
    trace w' =
      [Signal SIG_DFL; Called (CSpawn (lit "evolver") 30%Z);
       Called (CExpect 0 FILE_PROMPT_PAT (Some 30%Z));
       Called (CSendline 0 []);
       Called (CExpect 0 MAIN_PROMPT_PAT (Some 30%Z));
       Called (CSendline 0 []);
       Called (CExpect 0 MAIN_PROMPT_PAT (Some 5%Z));
       Stream stderr
         (lit "[EvolverKernel] No vi prompt principal; uso fallback '> '." ++ [LF]);
       Stream stdout
         (lit "[EvolverKernel] Evolver lanzado con prompt fallback." ++ [LF]);
       Signal default_int_handler].
Proof.
  intros E. repeat (split; [reflexivity|]).
  destruct (handshake_falls_back (E := E) 30%Z fresh_kernel fresh_world
              (lit "Timeout exceeded.")
              eq_refl (or_introl eq_refl) eq_refl eq_refl eq_refl)
    as (r & k' & w' & evs & Hh & Ht & _ & Hfb).
  destruct Hfb as (-> & _ & Hp & Hc & _ & ->); [now eexists|].
  exists k', w'. split; [exact Hh|]. split; [exact Hp|]. split; [exact Hc|].
  exact Ht.
Defined.


(** The scenario [cancel_once] meets the two conditions. *)
Lemma cancel_once_delivered : interrupt_delivered cancel_once.
Proof. intros n cid. reflexivity. Qed.

Lemma cancel_once_while_waiting : cancelled_only_while_waiting cancel_once.
Proof.
  intros n c H. destruct c as [| cid pat [z|] | | |]; cbn in H; try discriminate.
  - destruct z as [|[[]|[]|]|]; discriminate.
  - eauto.
Qed.

(** C1 (amended) for a one-line cell whose wait is cancelled once. *)
Lemma execute_status_witness :
  blank (lit "a") = false /\
  cancelled_only_while_waiting cancel_once /\ interrupt_delivered cancel_once /\
  exists k' w',
    do_execute (E := cancel_once) (lit "a") false fresh_kernel fresh_world
    = (Ok (ReplyOk (execution_count k')), k', w').
Proof.
  split; [reflexivity|].
  split; [exact cancel_once_while_waiting|]. split; [exact cancel_once_delivered|].
  pose (x := _ensure_evolver (E := cancel_once) fresh_kernel fresh_world).
  pose (y := _alive (E := cancel_once) x.1.2 x.2).
  apply (proj1 (execute_status (E := cancel_once) (lit "a") false
                  fresh_kernel fresh_world eq_refl) x.1.2 x.2 y.1.2 y.2).
  - vm_compute. reflexivity.
  - vm_compute. reflexivity.
  - exact cancel_once_while_waiting.
  - exact cancel_once_delivered.
Defined.

(** C8 (amended): the same cell with [silent] unset and set. *)
Lemma forwarding_rule_witness :
  let x := _ensure_evolver (E := prompt_child) live_kernel live_world in
  let y := _alive (E := prompt_child) x.1.2 x.2 in
  let z := dispatch (E := prompt_child) (lines_of (rstrip_newlines (lit "a"))) []
             y.1.2 y.2 in
  blank (lit "a") = false /\
  x = (Ok tt, x.1.2, x.2) /\ y = (Ok true, y.1.2, y.2) /\
  z = (Ok [Some (lit "done.")], z.1.2, z.2) /\
  join [Some (lit "done.")] = Ok (lit "done.") /\
  do_execute (E := prompt_child) (lit "a") false live_kernel live_world
  = (Ok (ReplyOk 0), live_kernel, log (Stream stdout (lit "done.")) z.2) /\
  do_execute (E := prompt_child) (lit "a") true live_kernel live_world
  = (Ok (ReplyOk 0), live_kernel, z.2).
Proof.
  intros x y z.
  assert (Hx : x = (Ok tt, x.1.2, x.2)) by (vm_compute; reflexivity).
  assert (Hy : y = (Ok true, y.1.2, y.2)) by (vm_compute; reflexivity).
  assert (Hz : z = (Ok [Some (lit "done.")], z.1.2, z.2)) by (vm_compute; reflexivity).
  assert (Hj : join [Some (lit "done.")] = Ok (lit "done.")) by (vm_compute; reflexivity).
  split; [reflexivity|]. split; [exact Hx|]. split; [exact Hy|].
  split; [exact Hz|]. split; [exact Hj|]. split.
  - exact (forwarding_rule (E := prompt_child) (lit "a") false live_kernel live_world
             x.1.2 x.2 y.1.2 y.2 _ z.1.2 z.2 _ eq_refl Hx Hy Hz Hj).
  - exact (forwarding_rule (E := prompt_child) (lit "a") true live_kernel live_world
             x.1.2 x.2 y.1.2 y.2 _ z.1.2 z.2 _ eq_refl Hx Hy Hz Hj).
Defined.

(** C1 as stated fails: a session is alive after [_ensure_evolver], the wait
    for the prompt of the only line is cancelled, and a second cancellation
    arrives during the re-synchronisation; [except Exception] does not catch
    it and [do_execute] raises instead of replying. *)
Lemma second_cancellation_escapes_execute :
  let '(r1, k1, w1) := _ensure_evolver (E := impatient_user) fresh_kernel fresh_world in
  let '(r2, k2, w2) := _alive (E := impatient_user) k1 w1 in
  let '(r, k', w') :=
    do_execute (E := impatient_user) (lit "a") false fresh_kernel fresh_world in
  blank (lit "a") = false /\ r1 = Ok tt /\ r2 = Ok true /\
  r = Exc KeyboardInterrupt.
Proof. vm_compute. repeat split. Qed.


(** C2 as stated fails: the wait for the prompt of the only line is
    cancelled, the child exits on the interrupt and reaches end-of-stream
    during the wait of two time units.  [except Exception: pass] swallows
    the end-of-stream: no notice is emitted, the dead session is kept,
    nothing is respawned, and the line's output is the text read so far,
    not the empty string. *)
Lemma child_dies_during_resync :
  let E := dies_when_interrupted in
  let '(r1, k1, w1) := _ensure_evolver live_kernel live_world in
  let '(r2, k2, w2) := _alive k1 w1 in
  let '(outs, k3, w3) := dispatch [lit "a"] [] k2 w2 in
  let '(r, k', w') := do_execute (lit "a") false live_kernel live_world in
  r1 = Ok tt /\ r2 = Ok true /\
  answer_of 9 (CExpect 0 MAIN_PROMPT_PAT (Some 2%Z))
  = {| raises := Some (PexpectEOF (lit "End Of File (EOF)."));
       text := lit "partial"; alive := false |} /\
  outs = Ok [Some (lit "partial")] /\
  child k3 = Some 0%nat /\
  r = Ok (ReplyOk 0) /\ child k' = Some 0%nat /\
  trace w' = [Called (CIsalive 0); Called (CIsalive 0);
              Called (CSendline 0 (lit "a"));
              Called (CExpect 0 MAIN_PROMPT_PAT None);
              Called (CSendintr 0);
              Called (CExpect 0 MAIN_PROMPT_PAT (Some 2%Z));
              Stream stdout (lit "partial")].
Proof. vm_compute. repeat split. Qed.

(** Why C1 and C3 ask for the interrupt to be delivered: [sendintr] is
    called outside any [try], so when it fails its exception leaves
    [do_execute], no output is recorded and nothing is replied. *)
Example undelivered_interrupt_escapes :
  let E := interrupt_fails in
  let '(r0, k0, w0) := _run_line (lit "a") None live_kernel live_world in
  let '(r, k', w') :=
    do_execute (lit "a" ++ [LF] ++ lit "b") false live_kernel live_world in
  r0 = Exc KeyboardInterrupt /\
  r = Exc (OtherException (lit "[Errno 5] Input/output error")) /\
  trace w' = [Called (CIsalive 0); Called (CIsalive 0);
              Called (CSendline 0 (lit "a"));
              Called (CExpect 0 MAIN_PROMPT_PAT None);
              Called (CSendintr 0)].
Proof. vm_compute. repeat split. Qed.

(** C8 as stated fails: [silent] is not set, so the condition for
    withholding (silent and a non-empty text) does not hold, but the text is
    empty and nothing is written to stdout. *)
Lemma empty_text_is_not_forwarded :
  let E := mute_child in
  let '(r1, k1, w1) := _ensure_evolver live_kernel live_world in
  let '(r2, k2, w2) := _alive k1 w1 in
  let '(outs, k3, w3) := dispatch (lines_of (rstrip_newlines (lit "a"))) [] k2 w2 in
  let '(r, k', w') := do_execute (lit "a") false live_kernel live_world in
  r1 = Ok tt /\ r2 = Ok true /\ outs = Ok [Some []] /\ join [Some []] = Ok [] /\
  (false && truthy []) = false /\
  r = Ok (ReplyOk 0) /\ w' = w3 /\
  trace w' = [Called (CIsalive 0); Called (CIsalive 0);
              Called (CSendline 0 (lit "a"));
              Called (CExpect 0 MAIN_PROMPT_PAT None)].
Proof. vm_compute. repeat split. Qed.

(** The whole of a three-line cell whose child dies during the second line:
    output of the first line, nothing for the second, a respawn, output of
    the third line from the new session, status ok. *)
Example death_on_second_line :
  let E := dies_at 8 in
  let code := lit "a" ++ [LF] ++ lit "b" ++ [LF] ++ lit "c" in
  let '(r, k', w') := do_execute code false fresh_kernel fresh_world in
  r = Ok (ReplyOk 0) /\ child k' = Some 9%nat /\
  drop 6 (trace w') =
    [Signal default_int_handler; Called (CIsalive 0);
     Called (CSendline 0 (lit "a")); Called (CExpect 0 MAIN_PROMPT_PAT None);
     Called (CSendline 0 (lit "b")); Called (CExpect 0 MAIN_PROMPT_PAT None);
     Stream stderr EOF_MSG;
     Signal SIG_DFL; Called (CSpawn (lit "evolver") 30%Z);
     Called (CExpect 9 FILE_PROMPT_PAT (Some 30%Z));
     Called (CSendline 9 []);
     Called (CExpect 9 MAIN_PROMPT_PAT (Some 30%Z));
     Stream stdout LAUNCHED_MSG; Signal default_int_handler;
     Called (CSendline 9 (lit "c")); Called (CExpect 9 MAIN_PROMPT_PAT None);
     Stream stdout (lit "done." ++ [] ++ lit "done.")].
Proof. vm_compute. repeat split. Qed.

(** ** The lines of a cell *)

Lemma linebreak_is_space c : islinebreak c = true -> isspace c = true.
Proof.
  unfold islinebreak, isspace.
  rewrite !orb_true_iff, !andb_true_iff, !N.leb_le, !N.eqb_eq. lia.
Qed.

Lemma splitlines_from_breakfree l : 
  breakfree l = true ->
  forall cur s, splitlines_from false cur (l ++ s) = splitlines_from false (cur ++ l) s.
Proof.
  induction l as [|c l IH]; intros Hl cur s; simpl.
  - now rewrite app_nil_r.
  - simpl in Hl. apply andb_true_iff in Hl as [Hc Hl].
    apply negb_true_iff in Hc. rewrite Hc.
    rewrite (IH Hl). now rewrite <- app_assoc.
Qed.

Lemma truthy_strip l : truthy (strip l) = negb (blank l).
Proof.
  destruct (strip l) eqn:Hs; simpl.
  - apply strip_nil in Hs. now rewrite Hs.
  - destruct (blank l) eqn:Hb; [|reflexivity]. apply strip_nil in Hb. congruence.
Qed.

(** X4. A cell that starts with a line without boundary characters, then a
    line feed or a carriage return and line feed: the line is dispatched as
    it is, without stripping, unless it is blank, and the lines of the rest
    follow. *)
Theorem lines_of_cons l sep rest :
  breakfree l = true ->
  sep = [LF] \/ sep = [CR; LF] ->
  lines_of (l ++ sep ++ rest) = (if blank l then [] else [l]) ++ lines_of rest.
Proof.
  intros Hl Hsep. unfold lines_of, splitlines.
  rewrite (splitlines_from_breakfree l Hl). simpl.
  destruct Hsep as [-> | ->]; simpl; rewrite truthy_strip; now destruct (blank l).
Qed.

Lemma rstrip_by_id q s :
  forallb (fun c => negb (q c)) s = true -> rstrip_by q s = s.
Proof.
  induction s as [|c s IH]; [reflexivity|].
  cbn [forallb rstrip_by]. intros H. apply andb_true_iff in H as [Hc Hs].
  rewrite (IH Hs). apply negb_true_iff in Hc. rewrite Hc. now destruct s.
Qed.

(** X5. A cell of one non-blank line without boundary characters is
    dispatched as that one line, leading and trailing blanks included. *)
Theorem lines_of_single l :
  breakfree l = true -> blank l = false ->
  lines_of (rstrip_newlines l) = [l].
Proof.
  intros Hl Hb.
  assert (Hr : rstrip_newlines l = l).
  { apply rstrip_by_id. unfold breakfree in Hl.
    rewrite forallb_forall in Hl. apply forallb_forall. intros c Hc.
    specialize (Hl c Hc). destruct (LF =? c) eqn:E; [|reflexivity].
    apply N.eqb_eq in E. subst c. discriminate. }
  rewrite Hr. unfold lines_of, splitlines.
  rewrite <- (app_nil_r l) at 1. rewrite (splitlines_from_breakfree l Hl).
  cbn [app splitlines_from].
  destruct l as [|c l]; [discriminate|].
  cbn [truthy List.filter]. rewrite truthy_strip, Hb. reflexivity.
Qed.

Lemma splitlines_from_breakfree_lines s :
  forall b cur l, breakfree cur = true ->
    In l (splitlines_from b cur s) -> breakfree l = true.
Proof.
  induction s as [|c s IH]; intros b cur l Hcur; simpl.
  - destruct (truthy cur); simpl; [intros [<-|[]]; exact Hcur | intros []].
  - destruct (b && (c =? LF)); [now apply IH|].
    destruct (islinebreak c) eqn:Hc.
    + intros [<-|Hin]; [exact Hcur | exact (IH _ [] l eq_refl Hin)].
    + apply IH. unfold breakfree in *. rewrite forallb_app, Hcur. simpl. now rewrite Hc.
Qed.

Lemma splitlines_from_chars s :
  forall b cur l c, In l (splitlines_from b cur s) -> In c l -> In c (cur ++ s).
Proof.
  induction s as [|d s IH]; intros b cur l c; simpl.
  - rewrite app_nil_r. destruct (truthy cur); simpl; [intros [<-|[]]; auto | intros []].
  - destruct (b && (d =? LF)).
    + intros Hl Hc. specialize (IH _ _ _ _ Hl Hc).
      apply in_app_iff in IH as [?|?]; apply in_app_iff; simpl; auto.
    + destruct (islinebreak d).
      * intros [<-|Hl] Hc; apply in_app_iff; [now left|].
        specialize (IH _ _ _ _ Hl Hc). simpl in IH. simpl. auto.
      * intros Hl Hc. specialize (IH _ _ _ _ Hl Hc).
        rewrite <- app_assoc in IH. exact IH.
Qed.

Lemma splitlines_from_covers s :
  forall b cur c, islinebreak c = false -> In c (cur ++ s) ->
    exists l, In l (splitlines_from b cur s) /\ In c l.
Proof.
  induction s as [|d s IH]; intros b cur c Hc; simpl.
  - rewrite app_nil_r. intros Hin. exists cur. destruct cur; [destruct Hin|].
    simpl. auto.
  - intros Hin. apply in_app_iff in Hin. 
    destruct (b && (d =? LF)) eqn:Hskip.
    + apply andb_true_iff in Hskip as [_ Hd]. apply N.eqb_eq in Hd. subst d.
      apply IH; [exact Hc|]. apply in_app_iff.
      destruct Hin as [?|[<-|?]]; auto. discriminate.
    + destruct (islinebreak d) eqn:Hd.
      * destruct Hin as [Hin|[<-|Hin]]; [| congruence |].
        -- exists cur. simpl. auto.
        -- destruct (IH (d =? CR) [] c Hc Hin) as (l & Hl & Hcl).
           exists l. simpl. auto.
      * apply IH; [exact Hc|]. rewrite <- app_assoc. apply in_app_iff. simpl.
        destruct Hin as [?|[?|?]]; auto.
Qed.

Lemma rstrip_by_keeps q s c : q c = false -> In c s -> In c (rstrip_by q s).
Proof.
  intros Hq. induction s as [|d s IH]; simpl; [auto|].
  intros [->|Hin].
  - destruct (rstrip_by q s); [rewrite Hq|]; simpl; auto.
  - specialize (IH Hin). destruct (rstrip_by q s); [destruct IH|]. simpl. auto.
Qed.

Lemma rstrip_by_chars q s c : In c (rstrip_by q s) -> In c s.
Proof.
  induction s as [|d s IH]; simpl; [auto|].
  destruct (rstrip_by q s) as [|e t].
  - destruct (q d); simpl; [intros [] | intros [->|[]]; auto].
  - intros [->|Hin]; auto.
Qed.

(** X3. Every line that [do_execute] sends has a character that is not
    whitespace and no line boundary inside. *)
Theorem lines_of_nonblank code :
  forallb (fun l => negb (blank l) && breakfree l) (lines_of code) = true.
Proof.
  apply forallb_forall. intros l. unfold lines_of.
  rewrite filter_In, truthy_strip. intros [Hin ->]. simpl.
  exact (splitlines_from_breakfree_lines code false [] l eq_refl Hin).
Qed.

(** X2. The short-circuit of [do_execute] is taken exactly when there is
    no line to send: a cell is blank if and only if it has no non-blank
    line. *)
Theorem blank_iff_no_lines code :
  blank code = true <-> lines_of (rstrip_newlines code) = [].
Proof.
  split.
  - intros Hb. destruct (lines_of (rstrip_newlines code)) as [|l ls] eqn:Hl; [reflexivity|].
    assert (Hin : In l (lines_of (rstrip_newlines code))) by (rewrite Hl; simpl; auto).
    unfold lines_of in Hin. rewrite filter_In, truthy_strip, negb_true_iff in Hin.
    destruct Hin as [Hin Hnb].
    assert (Hall : blank l = true).
    { apply forallb_forall. intros c Hc.
      pose proof (splitlines_from_chars _ _ _ _ _ Hin Hc) as H. simpl in H.
      apply rstrip_by_chars in H.
      unfold blank in Hb. rewrite forallb_forall in Hb. now apply Hb. }
    congruence.
  - intros Hl. destruct (blank code) eqn:Hb; [reflexivity|]. exfalso.
    assert (Hex : exists c, In c code /\ isspace c = false).
    { clear Hl. induction code as [|c code IH]; [discriminate|].
      simpl in Hb. destruct (isspace c) eqn:Hc.
      - destruct (IH Hb) as (d & Hd & Hs). exists d. simpl. auto.
      - exists c. simpl. auto. }
    destruct Hex as (c & Hin & Hs).
    assert (Hlb : islinebreak c = false).
    { destruct (islinebreak c) eqn:E; [|reflexivity].
      apply linebreak_is_space in E. congruence. }
    assert (Hin' : In c (rstrip_newlines code)).
    { apply rstrip_by_keeps; [|exact Hin].
      destruct (LF =? c) eqn:E; [|reflexivity]. apply N.eqb_eq in E. subst c. discriminate. }
    destruct (splitlines_from_covers (rstrip_newlines code) false [] c Hlb Hin')
      as (l & Hl' & Hcl).
    assert (Hnb : blank l = false).
    { destruct (blank l) eqn:E; [|reflexivity].
      unfold blank in E. rewrite forallb_forall in E. specialize (E c Hcl). congruence. }
    assert (Hmem : In l (lines_of (rstrip_newlines code))).
    { unfold lines_of. rewrite filter_In, truthy_strip, Hnb. auto. }
    rewrite Hl in Hmem. destruct Hmem.
Qed.

(** ** What every run leaves as it is

    The rules for [respects] follow the syntax of the methods, for any
    reflexive and transitive relation that the primitive steps respect. *)

Ltac frame_tac :=
  unfold expect, sendline, sendintr, isalive, before, pexpect_spawn,
    _emit_stderr, _emit_stdout;
  repeat first
    [ match goal with
      | |- forall _, respects _ _ => intro
      | |- respects _ (if ?b then _ else _) => destruct b
      | |- respects _ (match ?o with Some _ => _ | None => _ end) => destruct o
      | |- respects _ (match ?e with KeyboardInterrupt => _ | _ => _ end) => destruct e
      | H : forall c, respects _ (consult c) |- respects _ (consult _) => apply H
      | H : forall ev, respects _ (emit ev) |- respects _ (emit _) => apply H
      | H : forall c, respects _ (set_child c) |- respects _ (set_child _) => apply H
      | H : forall h, respects _ (signal_signal h) |- respects _ (signal_signal _) => apply H
      | H : forall t, respects _ (_spawn_and_handshake t) |- respects _ (_spawn_and_handshake _) => apply H
      | H : respects _ ?m |- respects _ ?m => exact H
      end ].

Section Frame.
Context {E : Environment} (R : relation (kernel * world)) `{!PreOrder R}.

Lemma respects_ret {A} (a : A) : respects R (ret a).
Proof. intros k w. simpl. reflexivity. Qed.

Lemma respects_raise {A} e : respects R (@raise A e).
Proof. intros k w. simpl. reflexivity. Qed.

Lemma respects_gets {A} (f : kernel -> A) : respects R (gets f).
Proof. intros k w. simpl. reflexivity. Qed.

Lemma respects_getsw {A} (f : world -> A) : respects R (getsw f).
Proof. intros k w. simpl. reflexivity. Qed.

Lemma respects_lift {A} (r : res A) : respects R (lift r).
Proof. intros k w. simpl. reflexivity. Qed.

Lemma respects_self_child attr : respects R (self_child attr).
Proof. intros k w. unfold self_child. destruct (child k); reflexivity. Qed.

Lemma respects_bind {A B} (m : M A) (f : A -> M B) :
  respects R m -> (forall a, respects R (f a)) -> respects R (bind m f).
Proof.
  intros Hm Hf k w. unfold bind. specialize (Hm k w).
  destruct (m k w) as [[[a|e] k1] w1]; [|exact Hm].
  specialize (Hf a k1 w1). destruct (f a k1 w1) as [[r k2] w2].
  now transitivity (k1, w1).
Qed.

Lemma respects_try_except {A} (m : M A) clauses :
  respects R m -> (forall e h, clauses e = Some h -> respects R h) ->
  respects R (try_except m clauses).
Proof.
  intros Hm Hc k w. unfold try_except. specialize (Hm k w).
  destruct (m k w) as [[[a|e] k1] w1]; [exact Hm|].
  destruct (clauses e) as [h|] eqn:Hh; [|exact Hm].
  specialize (Hc e h Hh k1 w1). destruct (h k1 w1) as [[r k2] w2].
  now transitivity (k1, w1).
Qed.

Lemma respects_try_finally {A} (m : M A) (f : M unit) :
  respects R m -> respects R f -> respects R (try_finally m f).
Proof.
  intros Hm Hf k w. unfold try_finally. specialize (Hm k w).
  destruct (m k w) as [[r k1] w1]. specialize (Hf k1 w1).
  destruct (f k1 w1) as [[[[]|e] k2] w2]; now transitivity (k1, w1).
Qed.

Lemma respects_except_TIMEOUT {A} (m h : M A) :
  respects R m -> respects R h -> respects R (try_except m (except_TIMEOUT h)).
Proof.
  intros Hm Hh. apply respects_try_except; [exact Hm|].
  intros [] h'; simpl; try discriminate. now intros [= <-].
Qed.

Lemma respects_except_Exception {A} (m : M A) (h : exn -> M A) :
  respects R m -> (forall e, respects R (h e)) ->
  respects R (try_except m (except_Exception h)).
Proof.
  intros Hm Hh. apply respects_try_except; [exact Hm|].
  intros e h'. unfold except_Exception. destruct (is_Exception e); [|discriminate].
  intros [= <-]. apply Hh.
Qed.

Hypothesis R_consult : forall c, respects R (consult c).
Hypothesis R_emit : forall ev, respects R (emit ev).
Hypothesis R_child : forall c, respects R (set_child c).
Hypothesis R_main : respects R (set_prompt_pat MAIN_PROMPT_PAT).
Hypothesis R_fallback : respects R (set_prompt_pat FALLBACK_PROMPT_PAT).

Ltac frame :=
  repeat first
    [ progress frame_tac
    | apply respects_ret | apply respects_raise | apply respects_gets
    | apply respects_getsw | apply respects_lift | apply respects_self_child
    | apply respects_except_TIMEOUT | apply respects_except_Exception
    | apply respects_try_finally | apply respects_bind ].

Lemma frame_handshake :
  (forall h, respects R (signal_signal h)) ->
  forall t, respects R (_spawn_and_handshake t).
Proof. intros R_signal t. unfold _spawn_and_handshake. frame. Qed.

Hypothesis R_handshake : forall t, respects R (_spawn_and_handshake t).

Lemma frame_alive : respects R _alive.
Proof. unfold _alive. frame. Qed.

Lemma frame_ensure : respects R _ensure_evolver.
Proof. pose proof frame_alive. unfold _ensure_evolver. frame. Qed.

Lemma frame_run_line ln t : respects R (_run_line ln t).
Proof. unfold _run_line. frame. Qed.

Lemma frame_run_one ln : respects R (run_one ln).
Proof.
  pose proof frame_ensure. pose proof (frame_run_line ln None).
  unfold run_one. apply respects_try_except; [assumption|].
  intros e h. destruct e; unfold except_Exception; simpl; intros [= <-]; frame.
Qed.

Lemma frame_dispatch lines : forall outputs, respects R (dispatch lines outputs).
Proof.
  induction lines as [|ln rest IH]; intros outputs; cbn [dispatch].
  - apply respects_ret.
  - apply respects_bind; [apply frame_run_one | intro; apply IH].
Qed.

Lemma frame_finish silent outputs : respects R (finish silent outputs).
Proof. unfold finish. frame. Qed.

Lemma frame_do_execute code silent : respects R (do_execute code silent).
Proof.
  pose proof frame_ensure. pose proof frame_alive.
  unfold do_execute. destruct (negb (truthy (strip (rstrip_newlines code)))).
  - frame.
  - apply respects_bind; [assumption|]. intros _.
    apply respects_bind; [assumption|]. intros live.
    destruct (negb live).
    + frame.
    + apply respects_bind; [apply frame_dispatch | intro; apply frame_finish].
Qed.

End Frame.

#[local] Instance same_sigint_preorder : PreOrder same_sigint.
Proof.
  split; [intros s; reflexivity|].
  intros s1 s2 s3 H12 H23. unfold same_sigint in *. congruence.
Qed.

#[local] Instance same_config_preorder : PreOrder same_config.
Proof.
  split; [intros s; unfold same_config; tauto|].
  intros s1 s2 s3 (Ha & Hb & Hc & Hd & He) (Ha' & Hb' & Hc' & Hd' & He').
  unfold same_config. repeat split; try congruence. tauto.
Qed.

Section Invariants.
Context {E : Environment}.

Lemma sigint_consult c : respects same_sigint (consult c).
Proof.
  intros k w. destruct (consult_spec c k w) as (r & -> & _). reflexivity.
Qed.

Lemma sigint_handshake t : respects same_sigint (_spawn_and_handshake t).
Proof.
  intros k w. pose proof (handshake_shape t k w) as H.
  destruct (_spawn_and_handshake t k w) as [[r k'] w']. exact (proj1 H).
Qed.

(** X6. After every run of [do_execute], returning or raising, the SIGINT
    disposition is the one from before the call. *)
Theorem execute_keeps_sigint code silent k w :
  let '(r, k', w') := do_execute code silent k w in sigint w' = sigint w.
Proof.
  apply (frame_do_execute same_sigint); try (intros; intros ? ?; reflexivity).
  - exact sigint_consult.
  - exact sigint_handshake.
Qed.

Lemma config_consult c : respects same_config (consult c).
Proof.
  intros k w. destruct (consult_spec c k w) as (r & -> & _).
  unfold same_config. simpl. tauto.
Qed.

Lemma config_handshake t : respects same_config (_spawn_and_handshake t).
Proof.
  apply (frame_handshake same_config);
    try (intros; intros ? ?; unfold same_config, known_pattern; simpl; tauto).
  exact config_consult.
Qed.

Lemma config_do_execute code silent : respects same_config (do_execute code silent).
Proof.
  apply (frame_do_execute same_config);
    try (intros; intros ? ?; unfold same_config, known_pattern; simpl; tauto).
  - exact config_consult.
  - exact config_handshake.
Qed.

Lemma reply_carries_counter code silent k w rep k' w' :
  do_execute code silent k w = (Ok rep, k', w') ->
  reply_count rep = execution_count k'.
Proof.
  unfold do_execute. destruct (negb (truthy (strip (rstrip_newlines code)))).
  - intros [= <- <- _]. reflexivity.
  - unfold bind at 1.
    destruct (_ensure_evolver k w) as [[[[]|e] k1] w1]; [|discriminate].
    unfold bind at 1.
    destruct (_alive k1 w1) as [[[live|e] k2] w2]; [|discriminate].
    destruct (negb live).
    + destruct silent; cbn; intros [= <- <- _]; reflexivity.
    + unfold bind at 1.
      destruct (dispatch _ _ k2 w2) as [[[outs|e] k3] w3]; [|discriminate].
      unfold finish, bind, lift, gets, ret, _emit_stdout, emit.
      destruct (join outs) as [t|e]; [|discriminate].
      destruct (negb silent && truthy t); intros [= <- <- _]; reflexivity.
Qed.

(** X7. No run of [do_execute] changes the command, the datafile line, the
    debug flag or the execution counter of the kernel, and every reply
    carries the counter the kernel had on entry. *)
Theorem execute_keeps_config code silent k w :
  let '(r, k', w') := do_execute code silent k w in
  _evolver_cmd k' = _evolver_cmd k /\
  _default_datafile k' = _default_datafile k /\
  _debug k' = _debug k /\
  execution_count k' = execution_count k /\
  match r with
  | Ok rep => reply_count rep = execution_count k
  | Exc _ => True
  end.
Proof.
  pose proof (config_do_execute code silent k w) as H.
  pose proof (reply_carries_counter code silent k w) as Hr.
  destruct (do_execute code silent k w) as [[r k'] w'].
  destruct H as (Ha & Hb & Hc & Hd & _). simpl in *.
  repeat split; try assumption.
  destruct r as [rep|e]; [|exact I]. rewrite <- Hd. now apply (Hr rep k' w').
Qed.

(** X8. The active prompt pattern stays one of the two the kernel knows:
    if it is the main or the fallback pattern before [do_execute], it is
    one of them after it. *)
Theorem execute_keeps_known_pattern code silent k w :
  known_pattern (_prompt_pat k) ->
  let '(r, k', w') := do_execute code silent k w in known_pattern (_prompt_pat k').
Proof.
  intros Hp. pose proof (config_do_execute code silent k w) as H.
  destruct (do_execute code silent k w) as [[r k'] w'].
  destruct H as (_ & _ & _ & _ & H). now apply H.
Qed.
End Invariants.

(** ** How a line and a cell can end *)

Lemma spawns_app a b : spawns (a ++ b) = (spawns a + spawns b)%nat.
Proof. unfold spawns. now rewrite List.filter_app, length_app. Qed.

Lemma spawns_no_spawn evs : forallb no_spawn evs = true -> spawns evs = 0%nat.
Proof.
  unfold spawns. induction evs as [|ev evs IH]; [reflexivity|].
  simpl. intros H. apply andb_true_iff in H as [Hev H].
  unfold no_spawn in Hev. apply negb_true_iff in Hev. rewrite Hev. now apply IH.
Qed.

Lemma spawns_cons ev evs :
  spawns (ev :: evs) = ((if is_spawn ev then 1 else 0) + spawns evs)%nat.
Proof. unfold spawns. simpl. now destruct (is_spawn ev). Qed.

Section Outcomes.
Context {E : Environment}.

(** Every way one line can end, whatever the child does. *)
Lemma run_one_outcome ln k w :
  let '(r, k', w') := run_one ln k w in
  (exists evs, trace w' = trace w ++ evs /\ (spawns evs <= 1)%nat) /\
  match r with
  | Ok o => is_Some o
  | Exc e => exists k1 w1, _run_line ln None k w = (Exc KeyboardInterrupt, k1, w1)
  end.
Proof.
  destruct k as [cmd df dbg [cid|] pat ec].
  all: repeat step. all: exec.
  all: try (split;
            [ eexists; split; [rewrite <- ?app_assoc; reflexivity | cbn; lia]
            | rewrite ?lookup_insert_eq; eauto ]; fail).
  all: try (split; [exists []; split; [now rewrite app_nil_r | cbn; lia] | eauto]; fail).
  all: match goal with
       | |- context [_ensure_evolver ?k ?w] =>
           pose proof (ensure_respawn k w eq_refl) as He;
           destruct (_ensure_evolver k w) as [[r k'] w'];
           destruct He as (-> & _ & evs & Ht & Hq)
       end.
  all: split; [|eauto].
  all: cbn in Ht; rewrite Ht; rewrite <- ?app_assoc; eexists;
    (split; [reflexivity|]);
    rewrite ?spawns_app, ?spawns_cons, (spawns_no_spawn _ Hq); cbn; lia.
Qed.

Lemma dispatch_outcome lines :
  forall outputs k w,
    Forall is_Some outputs ->
    let '(r, k', w') := dispatch lines outputs k w in
    (exists evs, trace w' = trace w ++ evs /\ (spawns evs <= List.length lines)%nat) /\
    match r with Ok outs => Forall is_Some outs | Exc _ => True end.
Proof.
  induction lines as [|ln rest IH]; intros outputs k w Hall; cbn [dispatch].
  - cbn. split; [|exact Hall]. exists []. rewrite app_nil_r. now split.
  - unfold bind. pose proof (run_one_outcome ln k w) as H1.
    destruct (run_one ln k w) as [[[o|e] k1] w1];
      destruct H1 as ((evs1 & Ht1 & Hn1) & Ho).
    + assert (Hall' : Forall is_Some (outputs ++ [o])).
      { apply Forall_app. split; [exact Hall|]. now constructor. }
      specialize (IH (outputs ++ [o]) k1 w1 Hall').
      destruct (dispatch rest (outputs ++ [o]) k1 w1) as [[r k2] w2].
      destruct IH as ((evs2 & Ht2 & Hn2) & Hr). split; [|exact Hr].
      exists (evs1 ++ evs2). rewrite Ht2, Ht1, <- app_assoc. split; [reflexivity|].
      rewrite spawns_app. cbn [List.length]. lia.
    + split; [|exact I]. exists evs1. split; [exact Ht1|]. cbn [List.length]. lia.
Qed.

(** X10. When the loop runs to its end it has collected one output per
    line and every one of them is a string, never [None]: the outputs can be
    joined. *)
Theorem loop_outputs_are_strings lines k w :
  let '(r, k', w') := dispatch lines [] k w in
  match r with
  | Ok outs =>
      List.length outs = List.length lines /\ Forall is_Some outs /\
      exists t, join outs = Ok t
  | Exc _ => True
  end.
Proof.
  pose proof (dispatch_outcome lines [] k w (List.Forall_nil _)) as H.
  destruct (dispatch lines [] k w) as [[[outs|e] k'] w'] eqn:Hd; [|exact I].
  destruct H as (_ & Hall).
  destruct (dispatch_extends _ _ _ _ _ _ _ Hd) as (new & -> & Hlen).
  split; [exact Hlen|]. split; [exact Hall|]. now apply join_strings.
Qed.

Lemma ensure_spawns k w :
  let '(r, k', w') := _ensure_evolver k w in
  exists evs, trace w' = trace w ++ evs /\ (spawns evs <= 1)%nat.
Proof.
  destruct (child k) as [cid|] eqn:Hc.
  - unfold _ensure_evolver, _alive. unfold bind at 1. unfold bind at 1.
    unfold gets at 1. rewrite Hc. unfold isalive, bind at 1.
    destruct (consult_spec (CIsalive cid) k w) as (r & -> & _).
    destruct r as [a|e]; cbn [ret].
    + destruct (alive a).
      * cbn. eexists. split; [reflexivity|]. cbn. lia.
      * unfold try_except, bind.
        match goal with
        | |- context [_spawn_and_handshake ?t ?k1 ?w1] =>
            pose proof (handshake_shape t k1 w1) as H;
            destruct (_spawn_and_handshake t k1 w1) as [[[c|e] k2] w2];
            destruct H as (_ & Hki & evs & Ht & Hq)
        end.
        -- cbn in *. rewrite Ht, <- app_assoc. eexists. split; [reflexivity|].
           assert (Hn : forallb no_spawn evs = true).
           { apply forallb_forall. intros ev Hin. rewrite forallb_forall in Hq.
             specialize (Hq ev Hin). unfold quiet in Hq. unfold no_spawn.
             now apply andb_true_iff in Hq as [_ ->]. }
           rewrite ?spawns_app, ?spawns_cons, ?spawns_app, (spawns_no_spawn _ Hn).
           cbn. lia.
        -- assert (Hn : forallb no_spawn evs = true).
           { apply forallb_forall. intros ev Hin. rewrite forallb_forall in Hq.
             specialize (Hq ev Hin). unfold quiet in Hq. unfold no_spawn.
             now apply andb_true_iff in Hq as [_ ->]. }
           unfold except_Exception. destruct e; cbn in Hki; try congruence; cbn in *;
             rewrite Ht, <- !app_assoc; eexists; (split; [reflexivity|]);
             rewrite ?spawns_app, ?spawns_cons, ?spawns_app, (spawns_no_spawn _ Hn);
             cbn; lia.
    + cbn. eexists. split; [reflexivity|]. cbn. lia.
  - pose proof (ensure_respawn k w Hc) as H.
    destruct (_ensure_evolver k w) as [[r k'] w'].
    destruct H as (_ & _ & evs & Ht & Hq). rewrite Ht.
    eexists. split; [reflexivity|].
    rewrite ?spawns_cons, (spawns_no_spawn _ Hq). cbn. lia.
Qed.

Lemma alive_spawns k w :
  let '(r, k', w') := _alive k w in
  exists evs, trace w' = trace w ++ evs /\ spawns evs = 0%nat.
Proof.
  unfold _alive, bind, gets, isalive, bind.
  destruct (child k) as [cid|]; cbn [ret].
  - destruct (consult_spec (CIsalive cid) k w) as (r & -> & _).
    destruct r; cbn; eexists; (split; [reflexivity|]); reflexivity.
  - cbn. exists []. now rewrite app_nil_r.
Qed.

Lemma finish_spawns silent outs k w :
  let '(r, k', w') := finish silent outs k w in
  exists evs, trace w' = trace w ++ evs /\ spawns evs = 0%nat.
Proof.
  unfold finish, bind, lift, gets, ret, _emit_stdout, emit.
  destruct (join outs) as [t|e].
  - destruct (negb silent && truthy t); cbn.
    + eexists. split; [reflexivity|]. reflexivity.
    + exists []. now rewrite app_nil_r.
  - exists []. now rewrite app_nil_r.
Qed.

(** X11. A run of [do_execute] only adds to the log, and it spawns at most
    once before the loop and at most once per line sent. *)
Theorem spawns_bounded code silent k w :
  let '(r, k', w') := do_execute code silent k w in
  exists evs,
    trace w' = trace w ++ evs /\
    (spawns evs <= S (List.length (lines_of (rstrip_newlines code))))%nat.
Proof.
  unfold do_execute. destruct (negb (truthy (strip (rstrip_newlines code)))).
  - cbn. exists []. rewrite app_nil_r. split; [reflexivity|]. cbn. lia.
  - unfold bind at 1. pose proof (ensure_spawns k w) as H1.
    destruct (_ensure_evolver k w) as [[[[]|e] k1] w1];
      destruct H1 as (evs1 & Ht1 & Hn1); [|exists evs1; split; [exact Ht1|lia]].
    unfold bind at 1. pose proof (alive_spawns k1 w1) as H2.
    destruct (_alive k1 w1) as [[[live|e] k2] w2];
      destruct H2 as (evs2 & Ht2 & Hn2);
      [|exists (evs1 ++ evs2); rewrite Ht2, Ht1, <- app_assoc;
        split; [reflexivity | rewrite spawns_app; lia]].
    destruct (negb live).
    + destruct silent; cbn; rewrite Ht2, Ht1, <- ?app_assoc; eexists;
        (split; [reflexivity|]); rewrite ?spawns_app, Hn2; cbn; lia.
    + unfold bind at 1.
      pose proof (dispatch_outcome (lines_of (rstrip_newlines code)) [] k2 w2
                    (List.Forall_nil _)) as H3.
      destruct (dispatch _ [] k2 w2) as [[[outs|e] k3] w3];
        destruct H3 as ((evs3 & Ht3 & Hn3) & _).
      * pose proof (finish_spawns silent outs k3 w3) as H4.
        destruct (finish silent outs k3 w3) as [[r k4] w4].
        destruct H4 as (evs4 & Ht4 & Hn4).
        exists (evs1 ++ evs2 ++ evs3 ++ evs4).
        rewrite Ht4, Ht3, Ht2, Ht1, <- !app_assoc. split; [reflexivity|].
        rewrite !spawns_app. lia.
      * exists (evs1 ++ evs2 ++ evs3).
        rewrite Ht3, Ht2, Ht1, <- !app_assoc. split; [reflexivity|].
        rewrite !spawns_app. lia.
Qed.
End Outcomes.

(** ** Whole runs *)

Lemma join_map_Some ts : join (map Some ts) = Ok (List.concat ts).
Proof. induction ts as [|t ts IH]; [reflexivity|]. simpl. now rewrite IH. Qed.

Section Runs.
Context {E : Environment}.

(** X13. On a kernel without a session the loop sends nothing and does not
    try to spawn: every line gets the message of the [AttributeError] on
    [None] as its output, and [self] and the world stay as they are. *)
Theorem lines_without_session lines :
  forall outputs k w,
    child k = None ->
    dispatch lines outputs k w
    = (Ok (outputs ++ map (fun ln => Some (line_error_msg ln NO_SESSION_ERROR)) lines),
       k, w).
Proof.
  induction lines as [|ln rest IH]; intros outputs k w Hc; cbn [dispatch map].
  - now rewrite app_nil_r.
  - assert (Hone : run_one ln k w
                   = (Ok (Some (line_error_msg ln NO_SESSION_ERROR)), k, w)).
    { unfold run_one, try_except, _run_line, bind, self_child. rewrite Hc.
      reflexivity. }
    unfold bind. rewrite Hone, (IH _ k w Hc), <- app_assoc. reflexivity.
Qed.


Lemma run_one_normal ln k w cid :
  child k = Some cid ->
  raises (answer_of (tick w) (CSendline cid ln)) = None ->
  raises (answer_of (S (tick w)) (CExpect cid (_prompt_pat k) None)) = None ->
  run_one ln k w
  = (Ok (Some (text (answer_of (S (tick w)) (CExpect cid (_prompt_pat k) None)))), k,
     {| tick := S (S (tick w)); sigint := sigint w;
        before_of := <[cid := text (answer_of (S (tick w))
                                     (CExpect cid (_prompt_pat k) None))]> (before_of w);
        trace := trace w ++ [Called (CSendline cid ln);
                             Called (CExpect cid (_prompt_pat k) None)] |}).
Proof.
  intros Hc Hs He. exec. rewrite Hc. exec. rewrite Hs. exec. rewrite Hc. exec.
  rewrite He. exec. rewrite Hc. exec.
  now rewrite lookup_insert_eq, <- app_assoc.
Qed.

Lemma dispatch_normal lines :
  well_behaved E ->
  forall outputs k w cid,
    child k = Some cid ->
    exists w',
      dispatch lines outputs k w
      = (Ok (outputs ++ map Some (transcript (tick w) cid (_prompt_pat k) lines)), k, w') /\
      trace w' = trace w ++ exchanges cid (_prompt_pat k) lines /\
      sigint w' = sigint w.
Proof.
  intros Hwb. induction lines as [|ln rest IH]; intros outputs k w cid Hc.
  - exists w. cbn. now rewrite !app_nil_r.
  - cbn [dispatch]. unfold bind.
    rewrite (run_one_normal ln k w cid Hc (proj1 (Hwb _ _)) (proj1 (Hwb _ _))).
    match goal with
    | |- context [dispatch rest ?o k ?w1] =>
        destruct (IH o k w1 cid Hc) as (w' & Hd & Ht & Hs)
    end.
    exists w'. rewrite Hd. cbn [tick trace sigint] in *.
    split; [|split; [|exact Hs]].
    + cbn [transcript map]. now rewrite <- app_assoc.
    + rewrite Ht. cbn [exchanges flat_map]. now rewrite <- !app_assoc.
Qed.

(** X14. A non-blank cell on a live session, all calls returning: the
    session is probed twice and kept, every non-blank line is sent once, in
    order, each followed by one wait without limit on the active pattern;
    the texts read at these waits, joined in order, go to stdout (unless
    [silent] or empty), and the reply is ok with [self] unchanged. *)
Theorem quiet_run_on_live_session code silent k w cid :
  well_behaved E ->
  child k = Some cid ->
  blank code = false ->
  let lines := lines_of (rstrip_newlines code) in
  let t := List.concat (transcript (S (S (tick w))) cid (_prompt_pat k) lines) in
  exists w',
    do_execute code silent k w = (Ok (ReplyOk (execution_count k)), k, w') /\
    trace w' =
      trace w ++ [Called (CIsalive cid); Called (CIsalive cid)]
        ++ exchanges cid (_prompt_pat k) lines
        ++ (if negb silent && truthy t then [Stream stdout t] else []).
Proof.
  intros Hwb Hc Hb lines t. subst t lines.
  assert (Ha : forall w0, _alive k w0
               = (Ok true, k,
                  {| tick := S (tick w0); sigint := sigint w0;
                     before_of := before_of w0;
                     trace := trace w0 ++ [Called (CIsalive cid)] |})).
  { intros w0. unfold _alive, bind, gets, isalive, bind, consult, ret.
    rewrite Hc. destruct (Hwb (tick w0) (CIsalive cid)) as [-> ->]. reflexivity. }
  assert (He : _ensure_evolver k w
               = (Ok tt, k,
                  {| tick := S (tick w); sigint := sigint w;
                     before_of := before_of w;
                     trace := trace w ++ [Called (CIsalive cid)] |})).
  { unfold _ensure_evolver. unfold bind at 1. now rewrite Ha. }
  rewrite (do_execute_live _ _ _ _ _ _ _ _ Hb He (Ha _)). unfold bind.
  match goal with
  | |- context [dispatch ?ls [] k ?w2] =>
      destruct (dispatch_normal ls Hwb [] k w2 cid Hc) as (w3 & Hd & Ht & _)
  end.
  rewrite Hd. cbn [tick trace app] in *.
  unfold finish, bind, lift. rewrite join_map_Some.
  match goal with
  | |- context [negb silent && truthy ?x] => destruct (negb silent && truthy x)
  end; cbn; eexists; (split; [reflexivity|]);
    cbn; rewrite Ht, <- ?app_assoc; cbn; now rewrite ?app_nil_r.
Qed.

(** X15. The first non-blank cell on a kernel without a session, all calls
    returning: the configured command is spawned with timeout 30, the first
    line the child receives is the configured datafile line, both prompts
    are awaited with timeout 30, and only then the lines of the cell are
    sent to the new session, which the kernel keeps with the main pattern
    active. *)
Theorem first_run_spawns_lazily code silent k w :
  well_behaved E ->
  child k = None ->
  blank code = false ->
  let cid := tick w in
  let lines := lines_of (rstrip_newlines code) in
  let t := List.concat (transcript (5 + tick w) cid MAIN_PROMPT_PAT lines) in
  exists w',
    do_execute code silent k w
    = (Ok (ReplyOk (execution_count k)),
       with_child (Some cid) (with_prompt_pat MAIN_PROMPT_PAT k), w') /\
    trace w' =
      trace w ++ [Signal SIG_DFL; Called (CSpawn (_evolver_cmd k) 30%Z)]
        ++ logfile_event k cid
        ++ [Called (CExpect cid FILE_PROMPT_PAT (Some 30%Z));
            Called (CSendline cid (_default_datafile k));
            Called (CExpect cid MAIN_PROMPT_PAT (Some 30%Z));
            Stream stdout LAUNCHED_MSG; Signal (sigint w);
            Called (CIsalive cid)]
        ++ exchanges cid MAIN_PROMPT_PAT lines
        ++ (if negb silent && truthy t then [Stream stdout t] else []).
Proof.
  intros Hwb Hc Hb cid lines t. subst t lines.
  assert (Hh : exists w1,
    _spawn_and_handshake 30%Z k w = (Ok cid, with_prompt_pat MAIN_PROMPT_PAT k, w1) /\
    tick w1 = (4 + tick w)%nat /\ 
    trace w1 = trace w ++ [Signal SIG_DFL; Called (CSpawn (_evolver_cmd k) 30%Z)]
        ++ logfile_event k cid
        ++ [Called (CExpect cid FILE_PROMPT_PAT (Some 30%Z));
            Called (CSendline cid (_default_datafile k));
            Called (CExpect cid MAIN_PROMPT_PAT (Some 30%Z));
            Stream stdout LAUNCHED_MSG; Signal (sigint w)]).
  { subst cid. unfold logfile_event. exec_handshake.
    rewrite (proj1 (Hwb _ _)). exec_handshake.
    destruct (_debug k); exec_handshake.
    all: rewrite (proj1 (Hwb _ _)); exec_handshake.
    all: rewrite (proj1 (Hwb _ _)); exec_handshake.
    all: rewrite (proj1 (Hwb _ _)); exec_handshake.
    all: eexists; (split; [reflexivity|]); (split; [reflexivity|]);
      cbn [trace]; rewrite <- ?app_assoc; reflexivity. }
  destruct Hh as (w1 & Hh & Htick & Ht1).
  set (k1 := with_child (Some cid) (with_prompt_pat MAIN_PROMPT_PAT k)).
  assert (He : _ensure_evolver k w = (Ok tt, k1, w1)).
  { unfold _ensure_evolver, _alive. unfold bind at 1. unfold bind at 1.
    unfold gets at 1. rewrite Hc. cbn [ret]. unfold try_except, bind. now rewrite Hh. }
  assert (Ha : _alive k1 w1
               = (Ok true, k1,
                  {| tick := S (tick w1); sigint := sigint w1;
                     before_of := before_of w1;
                     trace := trace w1 ++ [Called (CIsalive cid)] |})).
  { unfold _alive, bind, gets, isalive, bind, consult, ret. cbn [child k1 with_child].
    destruct (Hwb (tick w1) (CIsalive cid)) as [-> ->]. reflexivity. }
  rewrite (do_execute_live _ _ _ _ _ _ _ _ Hb He Ha). unfold bind.
  match goal with
  | |- context [dispatch ?ls [] k1 ?w2] =>
      destruct (dispatch_normal ls Hwb [] k1 w2 cid eq_refl) as (w3 & Hd & Ht & _)
  end.
  rewrite Hd. cbn [tick trace app _prompt_pat k1 with_child with_prompt_pat] in *.
  rewrite Htick in *. cbn [Nat.add] in *.
  unfold finish, bind, lift. rewrite join_map_Some.
  match goal with
  | |- context [negb silent && truthy ?x] => destruct (negb silent && truthy x)
  end; cbn; eexists; (split; [reflexivity|]);
    cbn; rewrite Ht, Ht1, <- ?app_assoc; cbn; rewrite <- ?app_assoc; cbn;
    now rewrite ?app_nil_r.
Qed.

End Runs.

(** X1. A new kernel has no session and the main pattern active; its
    command is [EVOLVER_CMD] when that is set and is never empty otherwise;
    the debug flag is set exactly when [EVOLVER_KERNEL_DEBUG] is set to a
    non-empty value. *)
Theorem init_kernel cmd which df dbg :
  let k := __init__ cmd which df dbg in
  child k = None /\ _prompt_pat k = MAIN_PROMPT_PAT /\
  match cmd with
  | Some c => _evolver_cmd k = c
  | None => truthy (_evolver_cmd k) = true
  end /\
  (_debug k = true <-> exists v, dbg = Some v /\ v <> []).
Proof.
  cbn. repeat split.
  - destruct cmd as [c|]; [reflexivity|].
    destruct which as [[|c p]|]; reflexivity.
  - destruct dbg as [[|c v]|]; cbn; try discriminate. intros _. now exists (c :: v).
  - intros (v & -> & Hv). destruct v; [contradiction|reflexivity].
Qed.

(** ** The properties of whole runs at work *)

(** X4 on a cell of two lines, the first indented, ended the DOS way. *)
Lemma lines_of_cons_witness :
  breakfree (lit "  g 5") = true /\
  lines_of (lit "  g 5" ++ [CR; LF] ++ lit "v") = [lit "  g 5"; lit "v"].
Proof.
  split; [reflexivity|].
  exact (lines_of_cons (lit "  g 5") [CR; LF] (lit "v") eq_refl (or_intror eq_refl)).
Defined.

(** X5 on a line with blanks on both sides. *)
Lemma lines_of_single_witness :
  breakfree (lit " g 5 ") = true /\ blank (lit " g 5 ") = false /\
  lines_of (rstrip_newlines (lit " g 5 ")) = [lit " g 5 "].
Proof.
  split; [reflexivity|]. split; [reflexivity|].
  exact (lines_of_single (lit " g 5 ") eq_refl eq_refl).
Defined.

(** X8 on the first cell of a child that never shows the main prompt: the
    pattern afterwards is the fallback pattern. *)
Lemma execute_keeps_known_pattern_witness :
  known_pattern (_prompt_pat fresh_kernel) /\
  known_pattern
    (_prompt_pat (do_execute (E := times_out_at [3; 5]%nat) (lit "a") false
                    fresh_kernel fresh_world).1.2) /\
  _prompt_pat (do_execute (E := times_out_at [3; 5]%nat) (lit "a") false
                 fresh_kernel fresh_world).1.2 = FALLBACK_PROMPT_PAT.
Proof.
  assert (H0 : known_pattern (_prompt_pat fresh_kernel)) by (left; reflexivity).
  split; [exact H0|].
  pose proof (execute_keeps_known_pattern (E := times_out_at [3; 5]%nat)
                (lit "a") false fresh_kernel fresh_world H0) as H.
  destruct (do_execute (E := times_out_at [3; 5]%nat) (lit "a") false
              fresh_kernel fresh_world) as [[r k'] w'] eqn:Hd.
  split; [exact H|].
  vm_compute in Hd. injection Hd as _ <- _. reflexivity.
Defined.

(** X13 for two lines on the new kernel, whatever the child would answer. *)
Lemma lines_without_session_witness :
  child fresh_kernel = None /\
  dispatch (E := prompt_child) [lit "a"; lit "b"] [] fresh_kernel fresh_world
  = (Ok [Some (line_error_msg (lit "a") NO_SESSION_ERROR);
         Some (line_error_msg (lit "b") NO_SESSION_ERROR)],
     fresh_kernel, fresh_world).
Proof.
  split; [reflexivity|].
  exact (lines_without_session (E := prompt_child) [lit "a"; lit "b"] []
           fresh_kernel fresh_world eq_refl).
Defined.


(** The scenario [prompt_child] is well behaved. *)
Lemma prompt_child_well_behaved : well_behaved prompt_child.
Proof. intros n c. split; reflexivity. Qed.

(** X14 for a cell of two lines and a blank one between them. *)
Lemma quiet_run_on_live_session_witness :
  let code := lit "a" ++ [LF] ++ lit "  " ++ [LF] ++ lit "b" ++ [LF] in
  well_behaved prompt_child /\ child live_kernel = Some 0%nat /\
  blank code = false /\
  exists w',
    do_execute (E := prompt_child) code false live_kernel live_world
    = (Ok (ReplyOk 0), live_kernel, w') /\
    trace w' =
      [Called (CIsalive 0); Called (CIsalive 0);
       Called (CSendline 0 (lit "a")); Called (CExpect 0 MAIN_PROMPT_PAT None);
       Called (CSendline 0 (lit "b")); Called (CExpect 0 MAIN_PROMPT_PAT None);
       Stream stdout (lit "done.done.")].
Proof.
  intros code.
  split; [exact prompt_child_well_behaved|]. split; [reflexivity|].
  split; [reflexivity|].
  destruct (quiet_run_on_live_session (E := prompt_child) code false
              live_kernel live_world 0%nat prompt_child_well_behaved
              eq_refl eq_refl) as (w' & Hd & Ht).
  exists w'. split; [exact Hd | exact Ht].
Defined.

(** X15 for a one-line cell on the new kernel. *)
Lemma first_run_spawns_lazily_witness :
  well_behaved prompt_child /\ child fresh_kernel = None /\
  blank (lit "a") = false /\
  exists w',
    do_execute (E := prompt_child) (lit "a") false fresh_kernel fresh_world
    = (Ok (ReplyOk 0), with_child (Some 0%nat) fresh_kernel, w') /\
    trace w' =
      [Signal SIG_DFL; Called (CSpawn (lit "evolver") 30%Z);
       Called (CExpect 0 FILE_PROMPT_PAT (Some 30%Z));
       Called (CSendline 0 []);
       Called (CExpect 0 MAIN_PROMPT_PAT (Some 30%Z));
       Stream stdout LAUNCHED_MSG; Signal default_int_handler;
       Called (CIsalive 0);
       Called (CSendline 0 (lit "a")); Called (CExpect 0 MAIN_PROMPT_PAT None);
       Stream stdout (lit "done.")].
Proof.
  split; [exact prompt_child_well_behaved|]. split; [reflexivity|].
  split; [reflexivity|].
  destruct (first_run_spawns_lazily (E := prompt_child) (lit "a") false
              fresh_kernel fresh_world prompt_child_well_behaved
              eq_refl eq_refl) as (w' & Hd & Ht).
  exists w'. split; [exact Hd | exact Ht].
Defined.
